(** * Faster-RCNN inference script (examples/faster-rcnn/inference.py)

    A shallow embedding of the module body of [inference.py].  The script
    is sequential glue code around the neon framework: every call that
    leaves the script (argument parser, backend, data loader, model,
    standard output, logger, evaluator) is recorded as an [event] in a
    trace, and every way the script itself can raise (an [assert], an
    unbound name, a list index out of range, a shape mismatch in
    [np.hstack]) is an [exn].  The framework functions whose code is not
    part of the script are the fields of the class [Framework]; they are
    assumed to return. *)

From Stdlib Require Import QArith Ascii String.
From stdpp Require Import base option list sorting strings gmap pretty.

Local Open Scope Z_scope.
Local Open Scope string_scope.
Local Open Scope list_scope.

(** ** Python values used by the script *)

(** The interpreter running the script.  [from builtins import range]
    binds [range] under both; [xrange] is a builtin of Python 2 only. *)
Inductive python : Type := Py2 | Py3.

Inductive exn : Type :=
| AssertionError (msg : string)
| NameError (name : string)
| KeyError (key : string)
| IndexError
| ValueError
| TypeError.

(** A two-dimensional numpy array: its second dimension and its rows.
    The column count is kept apart from the rows because an array with no
    rows still has a shape [(0, ncols)]. *)
Record ndarray (A : Type) : Type := NdArray {
  ncols : nat;
  rows : list (list A)
}.
Arguments NdArray {A} _ _.
Arguments ncols {A} _.
Arguments rows {A} _.

Definition nrows {A} (a : ndarray A) : nat := length (rows a).

(** Every row has the width the shape announces. *)
Definition wf_array {A} (a : ndarray A) : Prop :=
  Forall (λ r, length r = ncols a) (rows a).

(** [l[:n]] for a Python int [n]: a negative bound counts from the end. *)
Definition py_slice_to {A} (n : Z) (l : list A) : list A :=
  if bool_decide (0 ≤ n)%Z then take (Z.to_nat n) l
  else take (length l - Z.to_nat (- n)) l.

(** [a[:n]] on the first axis of an array. *)
Definition array_slice_to {A} (n : Z) (a : ndarray A) : ndarray A :=
  NdArray (ncols a) (py_slice_to n (rows a)).

(** [a / s], element by element. *)
Definition array_div {A B} (div : A → B → A) (a : ndarray A) (s : B) : ndarray A :=
  NdArray (ncols a) ((λ r : list A, (λ c, div c s) <$> r) <$> rows a).

(** [[v] * n]: no elements when [n] is zero or negative. *)
Definition py_list_repeat {A} (v : A) (n : Z) : list A := replicate (Z.to_nat n) v.

(** [d[:, np.newaxis]] on a one-dimensional array: an [n x 1] column. *)
Definition newaxis_column {A} (d : list A) : ndarray A :=
  NdArray 1 ((λ v, [v]) <$> d).

(** [np.hstack] on two-dimensional arrays: concatenation along the second
    axis; the first dimensions must agree, otherwise [ValueError]. *)
Definition hstack {A} (l : list (ndarray A)) : exn + ndarray A :=
  match l with
  | [] => inl ValueError
  | a :: rest =>
      if forallb (λ b, Nat.eqb (nrows b) (nrows a)) rest
      then inr (NdArray (foldl (λ c b, (c + ncols b)%nat) (ncols a) rest)
                        (foldl (λ rs b, zip_with app rs (rows b)) (rows a) rest))
      else inl ValueError
  end.

(** [l[i] = v] on a Python list, for an index [i ≥ 0] as produced by
    [enumerate]: [IndexError] when [i] is not a position of [l]. *)
Definition list_assign {A} (l : list A) (i : nat) (v : A) : exn + list A :=
  if bool_decide (i < length l)%nat then inr (<[i := v]> l) else inl IndexError.

(** [enumerate(l)], with the start index made explicit. *)
Fixpoint enumerate_from {A} (start : nat) (l : list A) : list (nat * A) :=
  match l with
  | [] => []
  | a :: l' => (start, a) :: enumerate_from (S start) l'
  end.
Definition enumerate {A} (l : list A) : list (nat * A) := enumerate_from 0 l.

(** [posixpath.join(a, b)] for two components. *)
Fixpoint ends_with_sep (s : string) : bool :=
  match s with
  | EmptyString => false
  | String c EmptyString => bool_decide (c = "/"%char)
  | String _ s' => ends_with_sep s'
  end.

Definition starts_with_sep (s : string) : bool :=
  match s with
  | String c _ => bool_decide (c = "/"%char)
  | EmptyString => false
  end.

Definition os_path_join (a b : string) : string :=
  if starts_with_sep b then b
  else if bool_decide (a = EmptyString) || ends_with_sep a then a +:+ b
  else a +:+ "/" +:+ b.

(** ** Command line *)

(** The namespace returned by [parser.parse_args()], as far as the script
    reads it.  [model_file], [manifest], [batch_size] and [data_dir] are
    inherited from [NeonArgparser]; the other four are added by the
    script (lines 55-60). *)
Record Args : Type := MkArgs {
  model_file : option string;
  manifest : gmap string string;
  batch_size : Z;
  data_dir : string;
  normalize : bool;
  output_dir : option string;
  width : Z;
  height : Z
}.

Definition set_output_dir (d : option string) (a : Args) : Args :=
  MkArgs (model_file a) (manifest a) (batch_size a) (data_dir a)
         (normalize a) d (width a) (height a).

(** Lines 63-64. *)
Definition resolve_output_dir (args : Args) : Args :=
  match output_dir args with
  | None => set_output_dir (Some (os_path_join (data_dir args) "frcn_output")) args
  | Some _ => args
  end.

(** The keyword arguments of the [PASCALVOC] configuration (lines 79-81). *)
Record loader_config : Type := LoaderConfig {
  cfg_manifest : string;
  cfg_cache_dir : string;
  cfg_width : Z;
  cfg_height : Z;
  cfg_rois_per_img : nat;
  cfg_inference : bool
}.

(** ** The validation set *)

(** One minibatch (one image, the batch size being 1): what the iterator
    yields and what [get_metadata_buffers] holds while it is current. *)
Record item (tensor shape scalar : Type) : Type := Item {
  item_x : tensor;
  item_y : tensor;
  im_shape : shape;
  im_scale : scalar;
  gt_boxes : ndarray scalar;
  gt_classes : ndarray scalar;
  num_gt_boxes : Z;
  difficult : ndarray scalar
}.
Arguments Item {_ _ _} _ _ _ _ _ _ _ _.
Arguments item_x {_ _ _} _.
Arguments item_y {_ _ _} _.
Arguments im_shape {_ _ _} _.
Arguments im_scale {_ _ _} _.
Arguments gt_boxes {_ _ _} _.
Arguments gt_classes {_ _ _} _.
Arguments num_gt_boxes {_ _ _} _.
Arguments difficult {_ _ _} _.

(** The [ObjectLocalization] object: its attributes [num_classes],
    [ndata], [CLASSES], and the minibatches its iterator yields. *)
Record dataset (tensor shape scalar names : Type) : Type := Dataset {
  num_classes : nat;
  ndata : nat;
  CLASSES : names;
  items : list (item tensor shape scalar)
}.
Arguments Dataset {_ _ _ _} _ _ _ _.
Arguments num_classes {_ _ _ _} _.
Arguments ndata {_ _ _ _} _.
Arguments CLASSES {_ _ _ _} _.
Arguments items {_ _ _ _} _.

(** ** The framework *)

(** What the script imports and calls but does not define. *)
Class Framework : Type := {
  tensor : Type;
  shape : Type;
  scalar : Type;
  names : Type;
  outputs : Type;
  proposals : Type;
  network : Type;
  kwargs : Type;
  (** float division of an array element by [im_scale] *)
  fdiv : scalar → scalar → scalar;
  (** the value a Python bool takes when [np.hstack] puts it next to
      numbers *)
  of_bool : bool → scalar;
  (** [extract_valid_args(args, gen_backend)] *)
  extract_valid_args : Args → kwargs;
  (** [get_data_cache_dir(data_dir, subdir=...)] *)
  get_data_cache_dir : string → string → string;
  (** the data set behind
      [ObjectLocalization(BGRMeanSubtract(TypeCast(DataLoader(config, be))))] *)
  load_dataset : loader_config → dataset tensor shape scalar names;
  (** [faster_rcnn.build_model(valid_set, frcn_rois_per_img, inference)] *)
  build_model : dataset tensor shape scalar names → nat → bool → network;
  (** [model.load_params(file)] *)
  load_params : network → string → network;
  (** [model.initialize(dataset=valid_set)] *)
  initialize : network → dataset tensor shape scalar names → network;
  (** [util.scale_bbreg_weights(model, means, stds, num_classes)] *)
  scale_bbreg_weights : network → list Q → list Q → nat → network;
  (** [model.fprop(x, inference=True)] *)
  fprop : network → tensor → outputs;
  (** [proposalLayer.get_proposals()] after the forward pass on [x] *)
  get_proposals : network → tensor → proposals * nat;
  (** [faster_rcnn.get_bboxes(outputs, proposals, num_proposals,
      num_classes, im_shape, im_scale, max_per_image, thresh, nms_thresh)]:
      one array of detections [(x1, y1, x2, y2, score)] per class *)
  get_bboxes : outputs → proposals → nat → nat → shape → scalar →
               nat → Q → Q → list (list (list scalar))
}.

(** The detections of one image: one array per class. *)
Abbreviation boxes := (list (list (list scalar))).
Abbreviation image := (item tensor shape scalar).
Abbreviation validation_set := (dataset tensor shape scalar names).

Section Script.
Context {F : Framework}.


(** An entry of [all_gt_boxes]: the empty list it is created with, or the
    array stored by the loop. *)
Inductive gt_entry : Type :=
| GtEmpty
| GtArray (a : ndarray scalar).

(** ** Observable calls *)

Inductive event : Type :=
| EvParseArgs
| EvGenBackend (kw : kwargs)
| EvGetDataCacheDir (dir subdir : string)
| EvPASCALVOC (cfg : loader_config)
| EvDataLoader (cfg : loader_config)
| EvTypeCast (index : nat) (dtype : string)
| EvBGRMeanSubtract (index : nat)
| EvObjectLocalization (frcn_rois : nat)
| EvBuildModel (frcn_rois : nat) (inference : bool)
| EvLoadParams (file : string)
| EvInitialize
| EvScaleBBRegWeights (means stds : list Q) (n_classes : nat)
| EvStdoutWrite (s : string)
| EvStdoutFlush
| EvFprop (model : network) (x : tensor)
| EvGetMetadataBuffers
| EvGetProposals
| EvGetBboxes (out : outputs) (props : proposals) (num_proposals n_classes : nat)
              (shp : shape) (scale : scalar) (max_det : nat) (thr nms_thr : Q)
| EvDisplay (msg : string)
| EvVocEval (dets : list boxes) (gts : list gt_entry) (classes : names)
            (use_07_metric : bool).

(** ** Traces and exceptions *)

(** A computation returns the calls it made and either the exception that
    ended it or its value. *)
Definition M (A : Type) : Type := (list event * (exn + A))%type.

Definition ret {A} (a : A) : M A := ([], inr a).

Definition bind {A B} (m : M A) (k : A → M B) : M B :=
  match m with
  | (t, inr a) => (t ++ (k a).1, (k a).2)
  | (t, inl e) => (t, inl e)
  end.

Definition emit (e : event) : M unit := ([e], inr tt).
Definition raise {A} (e : exn) : M A := ([], inl e).
Definition lift {A} (r : exn + A) : M A := ([], r).

#[global] Instance M_ret : MRet M := @ret.
#[global] Instance M_bind : MBind M := λ A B k m, bind m k.

Definition trace {A} (m : M A) : list event := m.1.
Definition outcome {A} (m : M A) : exn + A := m.2.

(** [m] run after the calls [t] have been made. *)
Definition after {A} (t : list event) (m : M A) : M A := (t ++ m.1, m.2).

(** [assert cond, msg] *)
Definition py_assert (cond : bool) (msg : string) : M unit :=
  if cond then ret tt else raise (AssertionError msg).

(** [d[key]] *)
Definition dict_get (d : gmap string string) (key : string) : M string :=
  match d !! key with
  | Some v => ret v
  | None => raise (KeyError key)
  end.

(** [for i, a in l: st = body i a st] *)
Fixpoint for_each {A S} (body : nat → A → S → M S) (l : list (nat * A)) (st : S) : M S :=
  match l with
  | [] => ret st
  | (i, a) :: l' => st' ← body i a st; for_each body l' st'
  end.

(** ** The script *)

(** Lines 66-70. *)
Definition check_config (args : Args) : M unit :=
  py_assert (bool_decide (is_Some (model_file args)))
            "Model file required for Faster-RCNN testing";;
  py_assert (bool_decide (is_Some (manifest args !! "val")))
            "Path to manifest file requred";;
  py_assert (bool_decide (batch_size args = 1))
            "Faster-RCNN only supports batch size 1".

(** The messages of the three assertions. *)
Definition assertion_messages : list string :=
  [ "Model file required for Faster-RCNN testing";
    "Path to manifest file requred";
    "Faster-RCNN only supports batch size 1" ].

Definition rpn_rois_per_img : nat := 256.
Definition frcn_rois_per_img : nat := 128.

(** Line 75. *)
Definition setup_backend (args : Args) : M unit :=
  emit (EvGenBackend (extract_valid_args args)).

(** Lines 78-86. *)
Definition build_data_loader (args : Args) : M validation_set :=
  emit (EvGetDataCacheDir (data_dir args) "pascalvoc_cache");;
  let cache_dir := get_data_cache_dir (data_dir args) "pascalvoc_cache" in
  val ← dict_get (manifest args) "val";
  let config := LoaderConfig val cache_dir (width args) (height args)
                             rpn_rois_per_img true in
  emit (EvPASCALVOC config);;
  emit (EvDataLoader config);;
  emit (EvTypeCast 0 "float32");;
  emit (EvBGRMeanSubtract 0);;
  emit (EvObjectLocalization frcn_rois_per_img);;
  ret (load_dataset config).

Definition bbtarget_means : list Q := [0; 0; 0; 0]%Q.
Definition bbtarget_stds : list Q := [1 # 10; 1 # 10; 2 # 10; 2 # 10]%Q.

(** Lines 100-102, on the model value. *)
Definition normalize_model (args : Args) (valid_set : validation_set)
    (model : network) : network :=
  if normalize args
  then scale_bbreg_weights model bbtarget_means bbtarget_stds (num_classes valid_set)
  else model.

(** Lines 91-102.  [args.model_file] is a string here: line 66 has
    excluded [None]; handing [None] to [load_params] is a [TypeError]. *)
Definition build_and_load_model (args : Args) (valid_set : validation_set) : M network :=
  emit (EvBuildModel frcn_rois_per_img true);;
  let model := build_model valid_set frcn_rois_per_img true in
  file ← match model_file args with
         | Some f => ret f
         | None => raise TypeError
         end;
  emit (EvLoadParams file);;
  let model := load_params model file in
  emit EvInitialize;;
  let model := initialize model valid_set in
  (if normalize args
   then emit (EvScaleBBRegWeights bbtarget_means bbtarget_stds (num_classes valid_set))
   else ret tt);;
  ret (normalize_model args valid_set model).

Definition max_per_image : nat := 100.
Definition thresh : Q := (1 # 1000)%Q.
Definition nms_thresh : Q := (3 # 10)%Q.

(** The variables the loop updates. *)
Record accum : Type := Accum {
  all_boxes : list boxes;
  all_gt_boxes : list gt_entry;
  last_strlen : nat
}.

Definition init_all_boxes (valid_set : validation_set) : list boxes :=
  replicate (ndata valid_set) (replicate (num_classes valid_set) []).

Definition init_all_gt_boxes (valid_set : validation_set) : list gt_entry :=
  replicate (ndata valid_set) GtEmpty.

(** The variables of the loop as lines 115-119 leave them. *)
Definition initial_accum (valid_set : validation_set) : accum :=
  Accum (init_all_boxes valid_set) (init_all_gt_boxes valid_set) 0.

(** The name [xrange] is looked up when line 117 is evaluated. *)
Definition lookup_xrange (py : python) : M unit :=
  match py with
  | Py2 => ret tt
  | Py3 => raise (NameError "xrange")
  end.

(** Lines 115-119. *)
Definition make_accumulators (py : python) (valid_set : validation_set) : M accum :=
  let boxes0 := init_all_boxes valid_set in
  lookup_xrange py;;
  let gt0 := init_all_gt_boxes valid_set in
  ret (Accum boxes0 gt0 0).

Definition carriage_return : string := String (ascii_of_nat 13) EmptyString.

Fixpoint spaces (n : nat) : string :=
  match n with
  | O => EmptyString
  | S n' => String " "%char (spaces n')
  end.

(** Line 122. *)
Definition prt_str (mb_idx num_images : nat) : string :=
  "Finished: " +:+ pretty mb_idx +:+ " / " +:+ pretty num_images.

(** Line 123. *)
Definition erase_line (strlen : nat) : string :=
  carriage_return +:+ spaces strlen +:+ carriage_return.

(** Line 124: [sys.stdout.write(s.encode('utf-8'))].  Under Python 2 the
    encoded value of an ASCII [str] is the same [str]; under Python 3 it is
    a [bytes] object, which a text stream refuses. *)
Definition stdout_write_encoded (py : python) (s : string) : M unit :=
  match py with
  | Py2 => emit (EvStdoutWrite s)
  | Py3 => raise TypeError
  end.

(** Lines 149-152. *)
Definition assemble_gt (it : image) : exn + ndarray scalar :=
  let n := num_gt_boxes it in
  let detected := py_list_repeat false n in
  hstack [ array_div fdiv (array_slice_to n (gt_boxes it)) (im_scale it);
           array_slice_to n (gt_classes it);
           array_slice_to n (difficult it);
           newaxis_column (of_bool <$> detected) ].

(** Lines 122-154: one iteration. *)
Definition loop_body (py : python) (valid_set : validation_set) (model : network)
    (mb_idx : nat) (it : image) (st : accum) : M accum :=
  let num_images := ndata valid_set in
  let s := prt_str mb_idx num_images in
  emit (EvStdoutWrite (erase_line (last_strlen st)));;
  stdout_write_encoded py s;;
  let strlen := String.length s in
  emit EvStdoutFlush;;
  emit (EvFprop model (item_x it));;
  let out := fprop model (item_x it) in
  emit EvGetMetadataBuffers;;
  emit EvGetProposals;;
  let '(props, num_proposals) := get_proposals model (item_x it) in
  emit (EvGetBboxes out props num_proposals (num_classes valid_set)
                    (im_shape it) (im_scale it) max_per_image thresh nms_thresh);;
  let bx := get_bboxes out props num_proposals (num_classes valid_set)
                       (im_shape it) (im_scale it) max_per_image thresh nms_thresh in
  boxes' ← lift (list_assign (all_boxes st) mb_idx bx);
  gt ← lift (assemble_gt it);
  gts' ← lift (list_assign (all_gt_boxes st) mb_idx (GtArray gt));
  ret (Accum boxes' gts' strlen).

(** Lines 120-154. *)
Definition run_loop (py : python) (valid_set : validation_set) (model : network)
    (st : accum) : M accum :=
  for_each (loop_body py valid_set model) (enumerate (items valid_set)) st.

(** Lines 157-158. *)
Definition evaluate (valid_set : validation_set) (st : accum) : M unit :=
  emit (EvDisplay "Evaluating detections");;
  emit (EvVocEval (all_boxes st) (all_gt_boxes st) (CLASSES valid_set) true).

(** Lines 115-158: accumulators, loop, evaluation. *)
Definition run_inference (py : python) (valid_set : validation_set) (model : network)
    : M unit :=
  st ← make_accumulators py valid_set;
  st ← run_loop py valid_set model st;
  evaluate valid_set st.

(** The module body, from the parsed arguments on. *)
Definition inference (py : python) (argv : Args) : M unit :=
  emit EvParseArgs;;
  let args := resolve_output_dir argv in
  check_config args;;
  setup_backend args;;
  valid_set ← build_data_loader args;
  model ← build_and_load_model args valid_set;
  run_inference py valid_set model.

(** ** Reading a trace *)

(** The steps of the pipeline, in the order of the script's text. *)
Inductive stage : Type :=
| StParse | StBackend | StLoader | StModel | StLoop | StEval.

Definition stage_rank (s : stage) : nat :=
  match s with
  | StParse => 0 | StBackend => 1 | StLoader => 2
  | StModel => 3 | StLoop => 4 | StEval => 5
  end%nat.

Definition stage_of (e : event) : stage :=
  match e with
  | EvParseArgs => StParse
  | EvGenBackend _ => StBackend
  | EvGetDataCacheDir _ _ | EvPASCALVOC _ | EvDataLoader _ | EvTypeCast _ _
  | EvBGRMeanSubtract _ | EvObjectLocalization _ => StLoader
  | EvBuildModel _ _ | EvLoadParams _ | EvInitialize
  | EvScaleBBRegWeights _ _ _ => StModel
  | EvStdoutWrite _ | EvStdoutFlush | EvFprop _ _ | EvGetMetadataBuffers
  | EvGetProposals | EvGetBboxes _ _ _ _ _ _ _ _ _ => StLoop
  | EvDisplay _ | EvVocEval _ _ _ _ => StEval
  end.

Definition stage_le (a b : event) : Prop :=
  (stage_rank (stage_of a) ≤ stage_rank (stage_of b))%nat.

Definition is_fprop (e : event) : bool :=
  match e with EvFprop _ _ => true | _ => false end.
Definition is_get_bboxes (e : event) : bool :=
  match e with EvGetBboxes _ _ _ _ _ _ _ _ _ => true | _ => false end.
Definition is_voc_eval (e : event) : bool :=
  match e with EvVocEval _ _ _ _ => true | _ => false end.
Definition is_scale_bbreg (e : event) : bool :=
  match e with EvScaleBBRegWeights _ _ _ => true | _ => false end.

(** What the trace has written to standard output, in order. *)
Fixpoint stdout_of (t : list event) : list string :=
  match t with
  | [] => []
  | EvStdoutWrite s :: t' => s :: stdout_of t'
  | _ :: t' => stdout_of t'
  end.

(** The calls through which the script itself emits text: the two
    methods of [sys.stdout] and the logger. *)
Definition is_output_call (e : event) : bool :=
  match e with
  | EvStdoutWrite _ | EvStdoutFlush | EvDisplay _ => true
  | _ => false
  end.

(** The output calls of a trace, in order. *)
Fixpoint output_calls (t : list event) : list event :=
  match t with
  | [] => []
  | e :: t' => if is_output_call e then e :: output_calls t' else output_calls t'
  end.

Fixpoint count (p : event → bool) (t : list event) : nat :=
  match t with
  | [] => 0
  | e :: t' => (if p e then 1 else 0) + count p t'
  end%nat.

(** ** The pipeline, phase by phase

    The calls each phase of a complete run makes, written down from the
    description of the pipeline; the theorems compare them with the trace
    of [inference]. *)

Definition loader_config_of (args : Args) (val : string) : loader_config :=
  LoaderConfig val (get_data_cache_dir (data_dir args) "pascalvoc_cache")
               (width args) (height args) rpn_rois_per_img true.

Definition parse_phase : list event := [EvParseArgs].

Definition backend_phase (args : Args) : list event :=
  [EvGenBackend (extract_valid_args args)].

Definition loader_phase (args : Args) (val : string) : list event :=
  [ EvGetDataCacheDir (data_dir args) "pascalvoc_cache";
    EvPASCALVOC (loader_config_of args val);
    EvDataLoader (loader_config_of args val);
    EvTypeCast 0 "float32";
    EvBGRMeanSubtract 0;
    EvObjectLocalization frcn_rois_per_img ].

Definition model_phase (args : Args) (file : string) (valid_set : validation_set)
    : list event :=
  [ EvBuildModel frcn_rois_per_img true; EvLoadParams file; EvInitialize ] ++
  (if normalize args
   then [EvScaleBBRegWeights bbtarget_means bbtarget_stds (num_classes valid_set)]
   else []).

(** The model the loop runs: built, loaded from [file], initialized and,
    with [--normalize], rescaled. *)
Definition loaded_model (file : string) (valid_set : validation_set) : network :=
  initialize (load_params (build_model valid_set frcn_rois_per_img true) file) valid_set.

Definition inference_model (args : Args) (file : string) (valid_set : validation_set)
    : network :=
  normalize_model args valid_set (loaded_model file valid_set).

(** The boxes decoded for one image. *)
Definition decoded_boxes (valid_set : validation_set) (model : network) (it : image)
    : boxes :=
  let pr := get_proposals model (item_x it) in
  get_bboxes (fprop model (item_x it)) pr.1 pr.2 (num_classes valid_set)
             (im_shape it) (im_scale it) max_per_image thresh nms_thresh.

(** One image: progress line, one forward pass, one box decoding. *)
Definition image_phase (valid_set : validation_set) (model : network)
    (strlen mb_idx : nat) (it : image) : list event :=
  let pr := get_proposals model (item_x it) in
  [ EvStdoutWrite (erase_line strlen);
    EvStdoutWrite (prt_str mb_idx (ndata valid_set));
    EvStdoutFlush;
    EvFprop model (item_x it);
    EvGetMetadataBuffers;
    EvGetProposals;
    EvGetBboxes (fprop model (item_x it)) pr.1 pr.2 (num_classes valid_set)
                (im_shape it) (im_scale it) max_per_image thresh nms_thresh ].

(** The length of the progress line left on the terminal when image
    [mb_idx] is about to be reported. *)
Definition strlen_before (valid_set : validation_set) (mb_idx : nat) : nat :=
  match mb_idx with
  | O => 0%nat
  | S i => String.length (prt_str i (ndata valid_set))
  end.

Fixpoint loop_phase (valid_set : validation_set) (model : network)
    (strlen : nat) (l : list (nat * image)) : list event :=
  match l with
  | [] => []
  | (i, it) :: l' =>
      image_phase valid_set model strlen i it ++
      loop_phase valid_set model (String.length (prt_str i (ndata valid_set))) l'
  end.

Definition eval_phase (valid_set : validation_set) (dets : list boxes)
    (gts : list gt_entry) : list event :=
  [ EvDisplay "Evaluating detections";
    EvVocEval dets gts (CLASSES valid_set) true ].

End Script.

(** ** A small concrete framework

    Two images, three classes; the network is the list of what was done
    to its parameters, most recent first. *)

Definition demo_image (id : nat) (n : Z) : item nat (nat * nat) Q :=
  Item id id (600, 800)%nat (2 # 1)%Q
       (NdArray 4 [[10; 20; 30; 40]; [2; 4; 6; 8]; [0; 0; 0; 0]]%Q)
       (NdArray 1 [[7]; [12]; [0]]%Q)
       n
       (NdArray 1 [[0]; [1]; [0]]%Q).

Definition demo_dataset (cfg : loader_config) : dataset nat (nat * nat) Q (list string) :=
  Dataset 3 2 ["__background__"; "aeroplane"; "bicycle"]
          [demo_image 0 2; demo_image 1 1].

#[local] Instance demo_framework : Framework := {|
  tensor := nat;
  shape := (nat * nat)%type;
  scalar := Q;
  names := list string;
  outputs := nat;
  proposals := nat;
  network := list string;
  kwargs := Z;
  fdiv := λ a b, Qred (a / b);
  of_bool := λ b, if b then 1%Q else 0%Q;
  extract_valid_args := batch_size;
  get_data_cache_dir := os_path_join;
  load_dataset := demo_dataset;
  build_model := λ _ _ _, ["build"];
  load_params := λ m f, ("load " +:+ f) :: m;
  initialize := λ m _, "initialize" :: m;
  scale_bbreg_weights := λ m _ _ _, "scale" :: m;
  fprop := λ _ x, x;
  get_proposals := λ _ x, (x, 300%nat);
  get_bboxes := λ out _ _ n _ _ _ _ _,
    replicate n [[1; 2; 3; 4; inject_Z (Z.of_nat out)]%Q]
|}.

Definition demo_args : Args :=
  MkArgs (Some "faster_rcnn.pkl") {[ "val" := "val.csv" ]} 1 "/data"
         false None 1000 1000.

Definition demo_args_no_model : Args :=
  MkArgs None {[ "val" := "val.csv" ]} 1 "/data" false None 1000 1000.

Definition demo_args_normalize : Args :=
  MkArgs (Some "faster_rcnn.pkl") {[ "val" := "val.csv" ]} 1 "/data"
         true (Some "/tmp/out") 1000 1000.

Definition demo_item : image := demo_image 0 2.

Definition demo_valid_set : validation_set :=
  load_dataset (loader_config_of (resolve_output_dir demo_args) "val.csv").

Definition demo_model : network :=
  inference_model (resolve_output_dir demo_args) "faster_rcnn.pkl" demo_valid_set.

(** The accumulators the loop leaves on the two images. *)
Definition demo_final_accum : accum :=
  match outcome (run_loop Py2 demo_valid_set demo_model (initial_accum demo_valid_set)) with
  | inr st => st
  | inl _ => initial_accum demo_valid_set
  end.


(** ** Variations of a validation set *)

Section Variations.
Context {F : Framework}.

(** The minibatch [it] with another target tensor [y]. *)
Definition with_y (y : tensor) (it : image) : image :=
  Item (item_x it) y (im_shape it) (im_scale it) (gt_boxes it) (gt_classes it)
       (num_gt_boxes it) (difficult it).

(** The validation set [valid_set] yielding the minibatches [its]. *)
Definition with_items (its : list image) (valid_set : validation_set) : validation_set :=
  Dataset (num_classes valid_set) (ndata valid_set) (CLASSES valid_set) its.

End Variations.

(** Both the model file and the manifest entry missing, and batch size 4. *)
Definition demo_args_two_faults : Args :=
  MkArgs None ∅ 4 "/data" false None 1000 1000.

(** A loader that announces one image and yields two. *)
Definition demo_overfull_set : validation_set :=
  Dataset 3 1 ["__background__"; "aeroplane"; "bicycle"]
          [demo_image 0 2; demo_image 1 1].


(** A negative box count. *)
Definition demo_negative_item : image := demo_image 0 (-3).

(** * Properties *)

Section Properties.
Context {F : Framework}.

(** ** The trace monad *)

Lemma bind_ret_l {A B} (a : A) (k : A → M B) : bind (ret a) k = k a.
Proof. unfold bind, ret. simpl. by destruct (k a). Qed.

Lemma bind_emit {B} (e : event) (k : unit → M B) :
  bind (emit e) k = after [e] (k tt).
Proof. reflexivity. Qed.

Lemma bind_raise {A B} (e : exn) (k : A → M B) : bind (raise e) k = raise e.
Proof. reflexivity. Qed.

Lemma bind_after {A B} (t : list event) (m : M A) (k : A → M B) :
  bind (after t m) k = after t (bind m k).
Proof.
  destruct m as [t' [e|a]]; unfold after, bind; simpl; [done|].
  by rewrite app_assoc.
Qed.

Lemma after_after {A} (t t' : list event) (m : M A) :
  after t (after t' m) = after (t ++ t') m.
Proof. unfold after; simpl. by rewrite app_assoc. Qed.

Lemma after_nil {A} (m : M A) : after [] m = m.
Proof. by destruct m. Qed.

Lemma trace_pair {A} (t : list event) (r : exn + A) : trace (t, r) = t.
Proof. reflexivity. Qed.

Lemma outcome_pair {A} (t : list event) (r : exn + A) : outcome (t, r) = r.
Proof. reflexivity. Qed.

Lemma trace_after {A} (t : list event) (m : M A) : trace (after t m) = t ++ trace m.
Proof. reflexivity. Qed.

Lemma outcome_after {A} (t : list event) (m : M A) : outcome (after t m) = outcome m.
Proof. reflexivity. Qed.

Lemma bind_inr {A B} (m : M A) (k : A → M B) (a : A) :
  outcome m = inr a → bind m k = after (trace m) (k a).
Proof. destruct m as [t [e|a']]; simpl; intros; by simplify_eq. Qed.

Lemma bind_inl {A B} (m : M A) (k : A → M B) (e : exn) :
  outcome m = inl e → bind m k = (trace m, inl e).
Proof. destruct m as [t [e'|a']]; simpl; intros; by simplify_eq. Qed.

Lemma outcome_bind_inr {A B} (m : M A) (k : A → M B) (b : B) :
  outcome (bind m k) = inr b → ∃ a, outcome m = inr a ∧ outcome (k a) = inr b.
Proof. destruct m as [t [e|a]]; simpl; [done|]. eauto. Qed.

(** ** Arguments *)

Lemma resolve_output_dir_frame (args : Args) :
  model_file (resolve_output_dir args) = model_file args ∧
  manifest (resolve_output_dir args) = manifest args ∧
  batch_size (resolve_output_dir args) = batch_size args ∧
  data_dir (resolve_output_dir args) = data_dir args ∧
  normalize (resolve_output_dir args) = normalize args ∧
  width (resolve_output_dir args) = width args ∧
  height (resolve_output_dir args) = height args.
Proof. unfold resolve_output_dir. by destruct (output_dir args). Qed.

Lemma check_config_valid (args : Args) (v f : string) :
  model_file args = Some f →
  manifest args !! "val" = Some v →
  batch_size args = 1 →
  check_config args = ret tt.
Proof.
  intros Hf Hv Hb. unfold check_config. rewrite Hf, Hv, Hb.
  reflexivity.
Qed.

Lemma build_data_loader_valid (args : Args) (v : string) :
  manifest args !! "val" = Some v →
  build_data_loader args =
    after (loader_phase args v) (ret (load_dataset (loader_config_of args v))).
Proof.
  intros Hv. unfold build_data_loader, dict_get. rewrite Hv. reflexivity.
Qed.

Lemma build_and_load_model_valid (args : Args) (f : string) (vs : validation_set) :
  model_file args = Some f →
  build_and_load_model args vs =
    after (model_phase args f vs) (ret (inference_model args f vs)).
Proof.
  intros Hf. unfold build_and_load_model, model_phase. rewrite Hf.
  by destruct (normalize args).
Qed.

(** The rest of the module body once the assertions have passed. *)
Lemma inference_valid (py : python) (argv : Args) (v f : string) :
  model_file argv = Some f →
  manifest argv !! "val" = Some v →
  batch_size argv = 1 →
  let args := resolve_output_dir argv in
  let vs := load_dataset (loader_config_of args v) in
  let model := inference_model args f vs in
  inference py argv =
    after (parse_phase ++ backend_phase args ++ loader_phase args v ++
           model_phase args f vs)
          (run_inference py vs model).
Proof.
  intros Hf Hv Hb args vs model.
  destruct (resolve_output_dir_frame argv) as (Ef & Em & Eb & _).
  unfold inference. fold args.
  rewrite (check_config_valid args v f) by (unfold args; congruence).
  rewrite (build_data_loader_valid args v) by (unfold args; congruence).
  unfold mbind, M_bind, setup_backend.
  rewrite bind_emit, bind_ret_l, bind_emit, bind_after, bind_ret_l.
  fold vs.
  rewrite (build_and_load_model_valid args f vs) by (unfold args; congruence).
  rewrite bind_after, bind_ret_l. fold model.
  rewrite !after_after. reflexivity.
Qed.

Lemma check_config_trace (args : Args) : trace (check_config args) = [].
Proof.
  unfold check_config, py_assert.
  destruct (bool_decide (is_Some (model_file args)));
    destruct (bool_decide (is_Some (manifest args !! "val")));
    destruct (bool_decide (batch_size args = 1)); reflexivity.
Qed.

Lemma check_config_invalid (args : Args) :
  model_file args = None ∨ manifest args !! "val" = None ∨ batch_size args ≠ 1 →
  ∃ msg, msg ∈ assertion_messages ∧ check_config args = raise (AssertionError msg).
Proof.
  intros H. unfold check_config, py_assert, assertion_messages.
  destruct (model_file args) as [f|] eqn:Hf; simpl.
  2:{ eexists; split; [|reflexivity]. rewrite !elem_of_cons; auto. }
  destruct (manifest args !! "val") as [v|] eqn:Hv; simpl.
  2:{ eexists; split; [|reflexivity]. rewrite !elem_of_cons; auto. }
  destruct H as [?|[?|Hb]]; [congruence..|].
  rewrite bool_decide_eq_false_2 by done.
  eexists; split; [|reflexivity]. rewrite !elem_of_cons; auto.
Qed.

Lemma config_cases (args : Args) :
  (∃ v f, model_file args = Some f ∧ manifest args !! "val" = Some v ∧
          batch_size args = 1) ∨
  (model_file args = None ∨ manifest args !! "val" = None ∨ batch_size args ≠ 1).
Proof.
  destruct (model_file args) as [f|]; [|by auto].
  destruct (manifest args !! "val") as [v|]; [|by auto].
  destruct (decide (batch_size args = 1)); [|by auto].
  left; eauto.
Qed.

Lemma inference_invalid (py : python) (argv : Args) :
  model_file argv = None ∨ manifest argv !! "val" = None ∨ batch_size argv ≠ 1 →
  ∃ msg, msg ∈ assertion_messages ∧
         inference py argv = ([EvParseArgs], inl (AssertionError msg)).
Proof.
  intros H.
  destruct (resolve_output_dir_frame argv) as (Ef & Em & Eb & _).
  destruct (check_config_invalid (resolve_output_dir argv)) as (msg & Hin & Hc).
  { rewrite Ef, Em, Eb. exact H. }
  exists msg; split; [done|].
  unfold inference. rewrite Hc. reflexivity.
Qed.

(** ** One iteration *)

Lemma loop_body_Py2 (vs : validation_set) (model : network) (i : nat) (it : image)
    (st : accum) :
  loop_body Py2 vs model i it st =
    after (image_phase vs model (last_strlen st) i it)
      (boxes' ← lift (list_assign (all_boxes st) i (decoded_boxes vs model it));
       gt ← lift (assemble_gt it);
       gts' ← lift (list_assign (all_gt_boxes st) i (GtArray gt));
       ret (Accum boxes' gts' (String.length (prt_str i (ndata vs))))).
Proof.
  unfold loop_body, image_phase, decoded_boxes.
  destruct (get_proposals model (item_x it)) as [props n]. reflexivity.
Qed.

Lemma loop_body_Py3 (vs : validation_set) (model : network) (i : nat) (it : image)
    (st : accum) :
  loop_body Py3 vs model i it st =
    ([EvStdoutWrite (erase_line (last_strlen st))], inl TypeError).
Proof. reflexivity. Qed.

Lemma loop_body_Py2_trace (vs : validation_set) (model : network) (i : nat)
    (it : image) (st : accum) :
  trace (loop_body Py2 vs model i it st) = image_phase vs model (last_strlen st) i it.
Proof.
  rewrite loop_body_Py2, trace_after.
  unfold mbind, M_bind, lift.
  unfold list_assign.
  destruct (bool_decide (i < length (all_boxes st))%nat);
    destruct (assemble_gt it) as [e|g];
    destruct (bool_decide (i < length (all_gt_boxes st))%nat);
    apply app_nil_r.
Qed.

(** What a completed iteration has done. *)
Lemma loop_body_inr (py : python) (vs : validation_set) (model : network) (i : nat)
    (it : image) (st st' : accum) :
  outcome (loop_body py vs model i it st) = inr st' →
  py = Py2 ∧ (i < length (all_boxes st))%nat ∧ (i < length (all_gt_boxes st))%nat ∧
  ∃ gt, assemble_gt it = inr gt ∧
        st' = Accum (<[i := decoded_boxes vs model it]> (all_boxes st))
                    (<[i := GtArray gt]> (all_gt_boxes st))
                    (String.length (prt_str i (ndata vs))).
Proof.
  destruct py; [|by rewrite loop_body_Py3].
  rewrite loop_body_Py2, outcome_after.
  unfold mbind, M_bind, lift, list_assign.
  case_bool_decide as Hb; [|done].
  destruct (assemble_gt it) as [e|g]; [done|].
  case_bool_decide as Hg; [|done].
  cbn. intros [= <-]. eauto 10.
Qed.

(** When an iteration completes. *)
Lemma loop_body_completes (vs : validation_set) (model : network) (i : nat)
    (it : image) (st : accum) (gt : ndarray scalar) :
  (i < length (all_boxes st))%nat →
  (i < length (all_gt_boxes st))%nat →
  assemble_gt it = inr gt →
  outcome (loop_body Py2 vs model i it st) =
    inr (Accum (<[i := decoded_boxes vs model it]> (all_boxes st))
               (<[i := GtArray gt]> (all_gt_boxes st))
               (String.length (prt_str i (ndata vs)))).
Proof.
  intros Hb Hg Ha. rewrite loop_body_Py2, outcome_after.
  unfold mbind, M_bind, lift, list_assign.
  rewrite (bool_decide_eq_true_2 _ Hb), (bool_decide_eq_true_2 _ Hg), Ha.
  reflexivity.
Qed.

(** ** The loop *)

Lemma for_each_cons {A S} (body : nat → A → S → M S) (i : nat) (a : A)
    (l : list (nat * A)) (st : S) :
  for_each body ((i, a) :: l) st = bind (body i a st) (for_each body l).
Proof. reflexivity. Qed.

Lemma for_each_trace_Forall {A S} (P : event → Prop) (body : nat → A → S → M S)
    (l : list (nat * A)) (st : S) :
  (∀ i a s, Forall P (trace (body i a s))) →
  Forall P (trace (for_each body l st)).
Proof.
  intros Hbody. revert st. induction l as [|[i a] l IH]; intros st; [constructor|].
  rewrite for_each_cons. specialize (Hbody i a st).
  destruct (body i a st) as [t [e|s']]; simpl in *; [done|].
  change (Forall P (t ++ trace (for_each body l s'))).
  apply Forall_app; auto.
Qed.

Lemma enumerate_from_fst {A} (l : list A) (k : nat) :
  (enumerate_from k l).*1 = seq k (length l).
Proof.
  revert k. induction l as [|a l IH]; intros k; simpl; [done|]. by rewrite IH.
Qed.

Lemma enumerate_from_length {A} (l : list A) (k : nat) :
  length (enumerate_from k l) = length l.
Proof. revert k. induction l; intros k; simpl; auto. Qed.

Lemma enumerate_from_take {A} (l : list A) (k n : nat) :
  take n (enumerate_from k l) = enumerate_from k (take n l).
Proof.
  revert k n. induction l as [|a l IH]; intros k [|n]; simpl; try done.
  by rewrite IH.
Qed.

(** Under Python 2 the loop has reported, run and decoded the first [k]
    images, for some [k]; all of them when it completes. *)
Lemma for_each_Py2_trace (vs : validation_set) (model : network)
    (l : list (nat * image)) (st : accum) :
  ∃ k, (k ≤ length l)%nat ∧
       trace (for_each (loop_body Py2 vs model) l st) =
         loop_phase vs model (last_strlen st) (take k l) ∧
       (∀ st', outcome (for_each (loop_body Py2 vs model) l st) = inr st' →
               k = length l).
Proof.
  revert st. induction l as [|[i it] l IH]; intros st.
  { exists 0%nat. by repeat split. }
  rewrite for_each_cons.
  pose proof (loop_body_Py2_trace vs model i it st) as Ht.
  destruct (loop_body Py2 vs model i it st) as [t [e|st1]] eqn:Hb; simpl in Ht.
  - exists 1%nat. simpl. repeat split; [lia| |done].
    subst t. reflexivity.
  - destruct (IH st1) as (k & Hk & Htr & Hout).
    assert (last_strlen st1 = String.length (prt_str i (ndata vs))) as Hlen.
    { destruct (loop_body_inr Py2 vs model i it st st1) as (_ & _ & _ & g & _ & ->);
        [by rewrite Hb|done]. }
    exists (S k). simpl. repeat split; [lia| |].
    + change (t ++ trace (for_each (loop_body Py2 vs model) l st1) =
              image_phase vs model (last_strlen st) i it ++
              loop_phase vs model (String.length (prt_str i (ndata vs))) (take k l)).
      by rewrite Htr, Ht, Hlen.
    + intros st' Ho. f_equal. by apply (Hout st').
Qed.

(** The accumulators after the loop has completed on the images [its],
    numbered from [k]. *)
Lemma for_each_inr (py : python) (vs : validation_set) (model : network)
    (its : list image) (k : nat) (st st' : accum) :
  outcome (for_each (loop_body py vs model) (enumerate_from k its) st) = inr st' →
  length (all_boxes st') = length (all_boxes st) ∧
  length (all_gt_boxes st') = length (all_gt_boxes st) ∧
  (its ≠ [] → py = Py2 ∧ (k + length its ≤ length (all_boxes st))%nat ∧
              (k + length its ≤ length (all_gt_boxes st))%nat) ∧
  (∀ j, (j < k ∨ k + length its ≤ j)%nat →
        all_boxes st' !! j = all_boxes st !! j ∧
        all_gt_boxes st' !! j = all_gt_boxes st !! j) ∧
  (∀ j it, its !! j = Some it →
           all_boxes st' !! (k + j)%nat = Some (decoded_boxes vs model it) ∧
           ∃ gt, assemble_gt it = inr gt ∧
                 all_gt_boxes st' !! (k + j)%nat = Some (GtArray gt)).
Proof.
  revert k st. induction its as [|it its IH]; intros k st Ho.
  { simpl in Ho. injection Ho as <-. repeat split; try done. }
  simpl enumerate_from in Ho. rewrite for_each_cons in Ho.
  apply outcome_bind_inr in Ho as (st1 & Hb & Hrest).
  apply loop_body_inr in Hb as (-> & Hlb & Hlg & gt & Hgt & ->).
  apply IH in Hrest as (Hl1 & Hl2 & Hne & Hframe & Hset). simpl in *.
  rewrite length_insert in Hl1. rewrite length_insert in Hl2.
  rewrite !length_insert in Hne.
  split; [done|]. split; [done|]. split; [|split].
  - intros _. split; [done|].
    destruct its as [|it' its']; [simpl; lia|].
    destruct Hne as (_ & H1 & H2); [done|]. simpl in *. lia.
  - intros j Hj. destruct (Hframe j) as [E1 E2]; [lia|].
    rewrite E1, E2. rewrite !list_lookup_insert_ne by lia. done.
  - intros [|j] it' Hit; simpl in Hit.
    + injection Hit as <-. rewrite Nat.add_0_r.
      destruct (Hframe k) as [E1 E2]; [lia|]. rewrite E1, E2.
      rewrite !list_lookup_insert_eq by done. eauto.
    + replace (k + S j)%nat with (S k + j)%nat by lia. by apply Hset.
Qed.

(** The loop completes when every index has a slot in both accumulators
    and the metadata of every image stacks. *)
Lemma for_each_completes (vs : validation_set) (model : network)
    (its : list image) (k : nat) (st : accum) :
  (k + length its ≤ length (all_boxes st))%nat →
  (k + length its ≤ length (all_gt_boxes st))%nat →
  Forall (λ it, ∃ gt, assemble_gt it = inr gt) its →
  ∃ st', outcome (for_each (loop_body Py2 vs model) (enumerate_from k its) st) = inr st'.
Proof.
  revert k st. induction its as [|it its IH]; intros k st Hb Hg Hall.
  { by eexists. }
  apply Forall_cons in Hall as [[gt Hgt] Hall]. simpl in Hb, Hg.
  simpl enumerate_from. rewrite for_each_cons.
  erewrite bind_inr; [|apply (loop_body_completes vs model k it st gt); [lia|lia|done]].
  rewrite outcome_after. apply IH; [| |done]; simpl; rewrite length_insert; lia.
Qed.

(** ** Traces of the whole script *)

Lemma trace_bind_Forall {A B} (P : event → Prop) (m : M A) (k : A → M B) :
  Forall P (trace m) → (∀ a, Forall P (trace (k a))) → Forall P (trace (bind m k)).
Proof.
  intros Hm Hk. destruct m as [t [e|a]]; simpl in *; [done|].
  change (Forall P (t ++ trace (k a))). apply Forall_app; auto.
Qed.

Lemma loop_body_trace_cases (py : python) (vs : validation_set) (model : network)
    (i : nat) (it : image) (st : accum) :
  trace (loop_body py vs model i it st) = image_phase vs model (last_strlen st) i it ∨
  trace (loop_body py vs model i it st) = [EvStdoutWrite (erase_line (last_strlen st))].
Proof.
  destruct py; [left; apply loop_body_Py2_trace|right; by rewrite loop_body_Py3].
Qed.

Lemma loop_body_trace_Forall (P : event → Prop) (py : python) (vs : validation_set)
    (model : network) (i : nat) (it : image) (st : accum) :
  (∀ strlen, Forall P (image_phase vs model strlen i it)) →
  Forall P (trace (loop_body py vs model i it st)).
Proof.
  intros HP. destruct (loop_body_trace_cases py vs model i it st) as [->| ->]; [done|].
  specialize (HP (last_strlen st)). unfold image_phase in HP.
  apply Forall_cons in HP as [HP _]. by constructor.
Qed.

Lemma run_inference_Forall (P : event → Prop) (py : python) (vs : validation_set)
    (model : network) :
  (∀ strlen i it, Forall P (image_phase vs model strlen i it)) →
  (∀ dets gts, Forall P (eval_phase vs dets gts)) →
  Forall P (trace (run_inference py vs model)).
Proof.
  intros Himg Hev. unfold run_inference, mbind, M_bind.
  apply trace_bind_Forall.
  { destruct py; constructor. }
  intros st. apply trace_bind_Forall.
  - apply for_each_trace_Forall. intros i it s. by apply loop_body_trace_Forall.
  - intros s. apply Hev.
Qed.

Lemma inference_Py3 (argv : Args) (v f : string) :
  model_file argv = Some f →
  manifest argv !! "val" = Some v →
  batch_size argv = 1 →
  let args := resolve_output_dir argv in
  let vs := load_dataset (loader_config_of args v) in
  inference Py3 argv =
    (parse_phase ++ backend_phase args ++ loader_phase args v ++ model_phase args f vs,
     inl (NameError "xrange")).
Proof.
  intros Hf Hv Hb args vs. rewrite (inference_valid Py3 argv v f) by done.
  fold args vs. unfold after. cbn -[model_phase loader_phase].
  by rewrite !app_nil_r.
Qed.

Lemma prologue_stages (args : Args) (v f : string) (vs : validation_set) :
  Forall (λ e, (stage_rank (stage_of e) ≤ 3)%nat)
         (parse_phase ++ backend_phase args ++ loader_phase args v ++
          model_phase args f vs).
Proof.
  unfold parse_phase, backend_phase, loader_phase, model_phase.
  destruct (normalize args); repeat (constructor; [simpl; lia|]); constructor.
Qed.

Lemma prologue_sorted (args : Args) (v f : string) (vs : validation_set) :
  StronglySorted stage_le
    (parse_phase ++ backend_phase args ++ loader_phase args v ++
     model_phase args f vs).
Proof.
  unfold parse_phase, backend_phase, loader_phase, model_phase, stage_le.
  destruct (normalize args); simpl;
    repeat (constructor; [|repeat (constructor; [simpl; lia|]); constructor]);
    constructor.
Qed.

Lemma image_phase_stage (vs : validation_set) (model : network) (strlen i : nat)
    (it : image) :
  Forall (λ e, stage_of e = StLoop) (image_phase vs model strlen i it).
Proof. unfold image_phase. repeat constructor. Qed.

Lemma eval_phase_stage (vs : validation_set) (dets : list boxes) (gts : list gt_entry) :
  Forall (λ e, stage_of e = StEval) (eval_phase vs dets gts).
Proof. unfold eval_phase. repeat constructor. Qed.

(** Only Python 2 gets as far as the loop. *)
Lemma loop_event_Py2 (py : python) (argv : Args) (e : event) :
  e ∈ trace (inference py argv) → stage_of e = StLoop → py = Py2.
Proof.
  intros Hin Hst. destruct py; [done|]. exfalso.
  destruct (config_cases argv) as [(v & f & Hf & Hv & Hb)|Hbad].
  - rewrite (inference_Py3 argv v f) in Hin by done. simpl in Hin.
    pose proof (prologue_stages (resolve_output_dir argv) v f
      (load_dataset (loader_config_of (resolve_output_dir argv) v))) as Hp.
    rewrite Forall_forall in Hp. apply Hp in Hin. rewrite Hst in Hin. simpl in Hin. lia.
  - destruct (inference_invalid Py3 argv Hbad) as (msg & _ & Heq).
    rewrite Heq in Hin. simpl in Hin. apply list_elem_of_singleton in Hin as ->.
    done.
Qed.

(** ** Counting calls *)

Lemma count_app (p : event → bool) (t1 t2 : list event) :
  count p (t1 ++ t2) = (count p t1 + count p t2)%nat.
Proof. induction t1 as [|e t1 IH]; simpl; [done|]. rewrite IH. lia. Qed.

Lemma count_0_Forall (p : event → bool) (t : list event) :
  Forall (λ e, p e = false) t → count p t = 0%nat.
Proof. induction 1 as [|e t He _ IH]; simpl; [done|]. by rewrite He, IH. Qed.

Lemma loop_phase_cons (vs : validation_set) (model : network) (strlen i : nat)
    (it : image) (l : list (nat * image)) :
  loop_phase vs model strlen ((i, it) :: l) =
    image_phase vs model strlen i it ++
    loop_phase vs model (String.length (prt_str i (ndata vs))) l.
Proof. reflexivity. Qed.

Lemma count_loop_phase (p : event → bool) (vs : validation_set) (model : network)
    (strlen : nat) (l : list (nat * image)) :
  (∀ s i it, count p (image_phase vs model s i it) = 1%nat) →
  count p (loop_phase vs model strlen l) = length l.
Proof.
  intros Hp. revert strlen. induction l as [|[i it] l IH]; intros strlen; [done|].
  rewrite loop_phase_cons, count_app, Hp, IH. done.
Qed.

Lemma stdout_of_app (t1 t2 : list event) :
  stdout_of (t1 ++ t2) = stdout_of t1 ++ stdout_of t2.
Proof.
  induction t1 as [|e t1 IH]; simpl; [done|]. destruct e; simpl; by rewrite ?IH.
Qed.

Lemma stdout_of_nil_Forall (t : list event) :
  Forall (λ e, stage_of e ≠ StLoop) t → stdout_of t = [].
Proof. induction 1 as [|e t He _ IH]; simpl; [done|]. by destruct e. Qed.

(** The lines of the progress report for the images [j .. j+n-1]. *)
Lemma stdout_of_loop_phase (vs : validation_set) (model : network)
    (its : list image) (j : nat) :
  stdout_of (loop_phase vs model (strlen_before vs j) (enumerate_from j its)) =
    flat_map (λ i, [erase_line (strlen_before vs i); prt_str i (ndata vs)])
             (seq j (length its)).
Proof.
  revert j. induction its as [|it its IH]; intros j; [done|].
  simpl enumerate_from. rewrite loop_phase_cons, stdout_of_app.
  change (String.length (prt_str j (ndata vs))) with (strlen_before vs (S j)).
  rewrite IH. reflexivity.
Qed.

Lemma loop_phase_stage (vs : validation_set) (model : network) (strlen : nat)
    (l : list (nat * image)) :
  Forall (λ e, stage_of e = StLoop) (loop_phase vs model strlen l).
Proof.
  revert strlen. induction l as [|[i it] l IH]; intros strlen; [constructor|].
  rewrite loop_phase_cons. apply Forall_app. split; [apply image_phase_stage|apply IH].
Qed.

Lemma same_stage_sorted (s : stage) (t : list event) :
  Forall (λ e, stage_of e = s) t → StronglySorted stage_le t.
Proof.
  induction 1 as [|e t He Ht IH]; constructor; [done|].
  eapply Forall_impl; [exact Ht|]. intros e' He'. unfold stage_le. by rewrite He, He'.
Qed.

(** ** Complete and interrupted runs under Python 2 *)

Lemma run_inference_Py2 (vs : validation_set) (model : network) :
  run_inference Py2 vs model =
    bind (run_loop Py2 vs model (initial_accum vs)) (evaluate vs).
Proof.
  unfold run_inference, make_accumulators, lookup_xrange, mbind, M_bind.
  by rewrite !bind_ret_l.
Qed.

Lemma evaluate_eq (vs : validation_set) (st : accum) :
  evaluate vs st = (eval_phase vs (all_boxes st) (all_gt_boxes st), inr tt).
Proof. reflexivity. Qed.

(** A Python 2 run with a valid configuration processes the first [k]
    images; either the loop raises there and the trace stops, or [k] is
    the number of images and the evaluation follows. *)
Lemma inference_Py2_cases (argv : Args) (v f : string) :
  model_file argv = Some f →
  manifest argv !! "val" = Some v →
  batch_size argv = 1 →
  let args := resolve_output_dir argv in
  let vs := load_dataset (loader_config_of args v) in
  let model := inference_model args f vs in
  let setup := parse_phase ++ backend_phase args ++ loader_phase args v ++
               model_phase args f vs in
  ∃ k, (k ≤ length (items vs))%nat ∧
    ((∃ e, inference Py2 argv =
             (setup ++ loop_phase vs model 0 (take k (enumerate (items vs))), inl e)) ∨
     (∃ st', k = length (items vs) ∧
             outcome (run_loop Py2 vs model (initial_accum vs)) = inr st' ∧
             inference Py2 argv =
               (setup ++ loop_phase vs model 0 (enumerate (items vs)) ++
                eval_phase vs (all_boxes st') (all_gt_boxes st'), inr tt))).
Proof.
  intros Hf Hv Hb args vs model setup.
  rewrite (inference_valid Py2 argv v f) by done. fold args vs model setup.
  rewrite run_inference_Py2.
  destruct (for_each_Py2_trace vs model (enumerate (items vs)) (initial_accum vs))
    as (k & Hk & Htr & Hout).
  unfold enumerate in Hk. rewrite enumerate_from_length in Hk.
  exists k. split; [done|]. fold (run_loop Py2 vs model (initial_accum vs)) in Htr, Hout.
  destruct (run_loop Py2 vs model (initial_accum vs)) as [t [e|st']] eqn:Hloop;
    unfold trace, outcome in *; simpl in Htr, Hout.
  - left. exists e. unfold after, bind. simpl. by rewrite Htr.
  - right. exists st'. specialize (Hout st' eq_refl).
    unfold enumerate in Hout. rewrite enumerate_from_length in Hout.
    split; [done|]. split; [done|].
    unfold after, bind. simpl.
    rewrite Htr, Hout. rewrite take_ge; [done|].
    unfold enumerate. by rewrite enumerate_from_length.
Qed.

(** A run that returns is a Python 2 run with a valid configuration whose
    loop has completed. *)
Lemma inference_inr (py : python) (argv : Args) :
  outcome (inference py argv) = inr tt →
  ∃ v f st',
    py = Py2 ∧ model_file argv = Some f ∧ manifest argv !! "val" = Some v ∧
    batch_size argv = 1 ∧
    let args := resolve_output_dir argv in
    let vs := load_dataset (loader_config_of args v) in
    let model := inference_model args f vs in
    outcome (run_loop Py2 vs model (initial_accum vs)) = inr st' ∧
    trace (inference py argv) =
      (parse_phase ++ backend_phase args ++ loader_phase args v ++
       model_phase args f vs) ++
      loop_phase vs model 0 (enumerate (items vs)) ++
      eval_phase vs (all_boxes st') (all_gt_boxes st').
Proof.
  intros Hout.
  destruct (config_cases argv) as [(v & f & Hf & Hv & Hb)|Hbad].
  2:{ destruct (inference_invalid py argv Hbad) as (msg & _ & Heq).
      by rewrite Heq in Hout. }
  destruct py.
  2:{ by rewrite (inference_Py3 argv v f) in Hout. }
  destruct (inference_Py2_cases argv v f Hf Hv Hb) as (k & Hk & [(e & Heq)|(st' & -> & Hl & Heq)]).
  { by rewrite Heq in Hout. }
  exists v, f, st'. repeat split; try done.
  by rewrite Heq.
Qed.

(** ** Stage order *)

Lemma sorted_app_stages (n : nat) (t1 t2 : list event) :
  StronglySorted stage_le t1 → StronglySorted stage_le t2 →
  Forall (λ e, (stage_rank (stage_of e) ≤ n)%nat) t1 →
  Forall (λ e, (n ≤ stage_rank (stage_of e))%nat) t2 →
  StronglySorted stage_le (t1 ++ t2).
Proof.
  intros S1 S2 H1 H2. apply StronglySorted_app_2; [|done..].
  intros x1 x2 Hx1 Hx2. rewrite Forall_forall in H1, H2.
  specialize (H1 x1 Hx1). specialize (H2 x2 Hx2). unfold stage_le. lia.
Qed.

Lemma loop_then_eval_sorted (vs : validation_set) (model : network) (strlen : nat)
    (l : list (nat * image)) (t : list event) :
  Forall (λ e, stage_of e = StEval) t →
  StronglySorted stage_le (loop_phase vs model strlen l ++ t) ∧
  Forall (λ e, (4 ≤ stage_rank (stage_of e))%nat) (loop_phase vs model strlen l ++ t).
Proof.
  intros Ht. pose proof (loop_phase_stage vs model strlen l) as Hl. split.
  - apply (sorted_app_stages 4); eauto using same_stage_sorted.
    + eapply Forall_impl; [exact Hl|]. by intros e ->.
    + eapply Forall_impl; [exact Ht|]. intros e ->. simpl. lia.
  - apply Forall_app. split.
    + eapply Forall_impl; [exact Hl|]. by intros e ->.
    + eapply Forall_impl; [exact Ht|]. intros e ->. simpl. lia.
Qed.

(** Every run makes its calls in the order of the stages. *)
Lemma inference_sorted (py : python) (argv : Args) :
  StronglySorted stage_le (trace (inference py argv)).
Proof.
  destruct (config_cases argv) as [(v & f & Hf & Hv & Hb)|Hbad].
  2:{ destruct (inference_invalid py argv Hbad) as (msg & _ & ->).
      repeat constructor. }
  destruct py.
  2:{ rewrite (inference_Py3 argv v f) by done. apply prologue_sorted. }
  destruct (inference_Py2_cases argv v f Hf Hv Hb)
    as (k & Hk & [(e & ->)|(st' & -> & Hl & ->)]); rewrite trace_pair.
  - rewrite <- (app_nil_r (loop_phase _ _ _ _)).
    apply (sorted_app_stages 3); [apply prologue_sorted| |apply prologue_stages|].
    + by apply loop_then_eval_sorted.
    + eapply Forall_impl; [by apply loop_then_eval_sorted|]. simpl. lia.
  - apply (sorted_app_stages 3); [apply prologue_sorted| |apply prologue_stages|].
    + apply loop_then_eval_sorted, eval_phase_stage.
    + eapply Forall_impl; [apply loop_then_eval_sorted, eval_phase_stage|]. simpl. lia.
Qed.

Lemma count_0_stage (p : event → bool) (s : stage) (t : list event) :
  (∀ e, p e = true → stage_of e = s) →
  Forall (λ e, stage_of e ≠ s) t → count p t = 0%nat.
Proof.
  intros Hp Ht. apply count_0_Forall. eapply Forall_impl; [exact Ht|].
  intros e He. destruct (p e) eqn:E; [|done]. by apply Hp in E.
Qed.

Lemma is_fprop_stage (e : event) : is_fprop e = true → stage_of e = StLoop.
Proof. by destruct e. Qed.
Lemma is_get_bboxes_stage (e : event) : is_get_bboxes e = true → stage_of e = StLoop.
Proof. by destruct e. Qed.
Lemma is_voc_eval_stage (e : event) : is_voc_eval e = true → stage_of e = StEval.
Proof. by destruct e. Qed.
Lemma is_scale_bbreg_stage (e : event) : is_scale_bbreg e = true → stage_of e = StModel.
Proof. by destruct e. Qed.

Lemma prologue_not_loop (args : Args) (v f : string) (vs : validation_set) :
  Forall (λ e, stage_of e ≠ StLoop)
         (parse_phase ++ backend_phase args ++ loader_phase args v ++
          model_phase args f vs).
Proof.
  eapply Forall_impl; [apply prologue_stages|].
  intros e He Hs. simpl in He. rewrite Hs in He. simpl in He. lia.
Qed.

Lemma prologue_not_eval (args : Args) (v f : string) (vs : validation_set) :
  Forall (λ e, stage_of e ≠ StEval)
         (parse_phase ++ backend_phase args ++ loader_phase args v ++
          model_phase args f vs).
Proof.
  eapply Forall_impl; [apply prologue_stages|].
  intros e He Hs. simpl in He. rewrite Hs in He. simpl in He. lia.
Qed.

Lemma loop_phase_not_eval (vs : validation_set) (model : network) (strlen : nat)
    (l : list (nat * image)) :
  Forall (λ e, stage_of e ≠ StEval) (loop_phase vs model strlen l).
Proof. eapply Forall_impl; [apply loop_phase_stage|]. by intros e ->. Qed.

Lemma inference_voc_eval_le_1 (py : python) (argv : Args) :
  (count is_voc_eval (trace (inference py argv)) ≤ 1)%nat.
Proof.
  destruct (config_cases argv) as [(v & f & Hf & Hv & Hb)|Hbad].
  2:{ destruct (inference_invalid py argv Hbad) as (msg & _ & ->). simpl. lia. }
  destruct py.
  2:{ rewrite (inference_Py3 argv v f) by done. rewrite trace_pair.
      rewrite (count_0_stage _ StEval);
        [lia|apply is_voc_eval_stage|apply prologue_not_eval]. }
  destruct (inference_Py2_cases argv v f Hf Hv Hb)
    as (k & Hk & [(e & ->)|(st' & -> & Hl & ->)]); rewrite trace_pair;
    rewrite count_app;
    rewrite (count_0_stage _ StEval _ is_voc_eval_stage (prologue_not_eval _ _ _ _));
    rewrite ?count_app;
    rewrite (count_0_stage _ StEval _ is_voc_eval_stage (loop_phase_not_eval _ _ _ _));
    simpl; lia.
Qed.

(** ** The model phase *)

Lemma setup_scale_event (args : Args) (v f : string) (vs : validation_set) (e : event) :
  e ∈ parse_phase ++ backend_phase args ++ loader_phase args v ++ model_phase args f vs →
  is_scale_bbreg e = true →
  normalize args = true ∧
  e = EvScaleBBRegWeights bbtarget_means bbtarget_stds (num_classes vs).
Proof.
  unfold parse_phase, backend_phase, loader_phase, model_phase.
  destruct (normalize args); simpl; rewrite ?elem_of_cons, elem_of_nil;
    intros Hin Hs; repeat (destruct Hin as [->|Hin]; [by simplify_eq|]); done.
Qed.

Lemma setup_has_scale (args : Args) (v f : string) (vs : validation_set) :
  normalize args = true →
  EvScaleBBRegWeights bbtarget_means bbtarget_stds (num_classes vs)
    ∈ parse_phase ++ backend_phase args ++ loader_phase args v ++ model_phase args f vs.
Proof.
  intros Hn. unfold parse_phase, backend_phase, loader_phase, model_phase.
  rewrite Hn. simpl. rewrite !elem_of_cons. auto 20.
Qed.

Lemma setup_count_scale (args : Args) (v f : string) (vs : validation_set) :
  count is_scale_bbreg
    (parse_phase ++ backend_phase args ++ loader_phase args v ++ model_phase args f vs) =
  (if normalize args then 1 else 0)%nat.
Proof.
  unfold parse_phase, backend_phase, loader_phase, model_phase.
  by destruct (normalize args).
Qed.

(** After the model phase no rescaling happens and every forward pass
    runs the model that phase has left. *)
Lemma run_inference_model (py : python) (vs : validation_set) (model : network) :
  Forall (λ e, is_scale_bbreg e = false ∧ ∀ m x, e = EvFprop m x → m = model)
         (trace (run_inference py vs model)).
Proof.
  apply run_inference_Forall.
  - intros strlen i it. unfold image_phase.
    repeat (constructor; [split; [done|]; intros m x [=]; done|]). constructor.
  - intros dets gts. unfold eval_phase.
    repeat (constructor; [split; [done|]; intros m x [=]; done|]). constructor.
Qed.

(** ** Independence from [output_dir] *)

Lemma resolve_output_dir_set (a : Args) :
  resolve_output_dir a = set_output_dir (output_dir (resolve_output_dir a)) a.
Proof. unfold resolve_output_dir. by destruct a as [? ? ? ? ? [d|] ? ?]. Qed.

Lemma check_config_fields (a b : Args) :
  model_file a = model_file b → manifest a = manifest b →
  batch_size a = batch_size b → check_config a = check_config b.
Proof. intros E1 E2 E3. unfold check_config. by rewrite E1, E2, E3. Qed.

Lemma inference_check_fail (py : python) (argv : Args) (e : exn) :
  check_config (resolve_output_dir argv) = raise e →
  inference py argv = ([EvParseArgs], inl e).
Proof. intros Hc. unfold inference. by rewrite Hc. Qed.

(** ** What a returning run has done *)

Lemma eval_phase_last (vs : validation_set) (dets : list boxes) (gts : list gt_entry)
    (t : list event) :
  last (t ++ eval_phase vs dets gts) = Some (EvVocEval dets gts (CLASSES vs) true).
Proof.
  unfold eval_phase.
  change [EvDisplay "Evaluating detections"; EvVocEval dets gts (CLASSES vs) true]
    with ([EvDisplay "Evaluating detections"] ++
          [EvVocEval dets gts (CLASSES vs) true]).
  rewrite app_assoc. apply last_snoc.
Qed.

Lemma complete_trace_counts (args : Args) (v f : string) (vs : validation_set)
    (model : network) (dets : list boxes) (gts : list gt_entry) :
  let t := (parse_phase ++ backend_phase args ++ loader_phase args v ++
            model_phase args f vs) ++
           loop_phase vs model 0 (enumerate (items vs)) ++ eval_phase vs dets gts in
  count is_fprop t = length (items vs) ∧
  count is_get_bboxes t = length (items vs) ∧
  count is_voc_eval t = 1%nat ∧
  last t = Some (EvVocEval dets gts (CLASSES vs) true).
Proof.
  intros t. unfold t.
  assert (length (enumerate (items vs)) = length (items vs)) as Hlen
    by apply enumerate_from_length.
  split; [|split; [|split]].
  - rewrite count_app, (count_app _ (loop_phase _ _ _ _)).
    rewrite (count_0_stage _ StLoop _ is_fprop_stage (prologue_not_loop _ _ _ _)).
    rewrite count_loop_phase by done. rewrite Hlen. simpl. lia.
  - rewrite count_app, (count_app _ (loop_phase _ _ _ _)).
    rewrite (count_0_stage _ StLoop _ is_get_bboxes_stage (prologue_not_loop _ _ _ _)).
    rewrite count_loop_phase by done. rewrite Hlen. simpl. lia.
  - rewrite count_app, (count_app _ (loop_phase _ _ _ _)).
    rewrite (count_0_stage _ StEval _ is_voc_eval_stage (prologue_not_eval _ _ _ _)).
    by rewrite (count_0_stage _ StEval _ is_voc_eval_stage (loop_phase_not_eval _ _ _ _)).
  - rewrite app_assoc. apply eval_phase_last.
Qed.

(** The accumulators keep the length they were created with. *)
Lemma run_loop_lengths (py : python) (vs : validation_set) (model : network)
    (st' : accum) :
  outcome (run_loop py vs model (initial_accum vs)) = inr st' →
  length (all_boxes st') = ndata vs ∧ length (all_gt_boxes st') = ndata vs ∧
  (length (items vs) ≤ ndata vs)%nat.
Proof.
  intros Hout. unfold run_loop, enumerate in Hout.
  apply for_each_inr in Hout as (H1 & H2 & Hne & _).
  unfold initial_accum, init_all_boxes, init_all_gt_boxes in *. simpl in H1, H2, Hne.
  rewrite length_replicate in H1. rewrite length_replicate in H2.
  rewrite !length_replicate in Hne. repeat split; try done.
  destruct (items vs) as [|it its]; [simpl; lia|].
  destruct Hne as (_ & Hle & _); [done|]. lia.
Qed.

(** ** The ground-truth array *)

(** The array lines 149-152 build when the buffers hold at least
    [num_gt_boxes] rows. *)
Lemma assemble_gt_eq (it : image) :
  (0 ≤ num_gt_boxes it)%Z →
  (Z.to_nat (num_gt_boxes it) ≤ nrows (gt_boxes it))%nat →
  (Z.to_nat (num_gt_boxes it) ≤ nrows (gt_classes it))%nat →
  (Z.to_nat (num_gt_boxes it) ≤ nrows (difficult it))%nat →
  let k := Z.to_nat (num_gt_boxes it) in
  assemble_gt it =
    inr (NdArray
           (ncols (gt_boxes it) + ncols (gt_classes it) + ncols (difficult it) + 1)
           (zip_with app
              (zip_with app
                 (zip_with app
                    ((λ r : list scalar, (λ c, fdiv c (im_scale it)) <$> r) <$>
                       take k (rows (gt_boxes it)))
                    (take k (rows (gt_classes it))))
                 (take k (rows (difficult it))))
              ((λ v, [v]) <$> (of_bool <$> replicate k false)))).
Proof.
  intros Hn Hb Hc Hd k. unfold nrows in Hb, Hc, Hd.
  unfold assemble_gt, hstack, array_div, array_slice_to, newaxis_column,
    py_list_repeat, py_slice_to, nrows.
  rewrite bool_decide_eq_true_2 by done. fold k.
  cbn [forallb rows ncols foldl].
  rewrite !length_fmap, !length_take, length_replicate.
  replace (k `min` length (rows (gt_boxes it)))%nat with k by lia.
  replace (k `min` length (rows (gt_classes it)))%nat with k by lia.
  replace (k `min` length (rows (difficult it)))%nat with k by lia.
  rewrite Nat.eqb_refl. reflexivity.
Qed.

Lemma wf_array_lookup {A} (a : ndarray A) (r : nat) (row : list A) :
  wf_array a → rows a !! r = Some row → length row = ncols a.
Proof. intros Hwf Hr. unfold wf_array in Hwf. by eapply Forall_lookup_1 in Hwf. Qed.

(** ** The text of the progress report *)

Lemma spaces_literal (n : nat) :
  spaces n = string_of_list_ascii (replicate n " "%char).
Proof. induction n as [|n IH]; simpl; [done|]. by rewrite IH. Qed.

(** Line 123, character by character: a carriage return (code 13), as
    many blanks as the previous progress string is long, a carriage
    return. *)
Lemma erase_line_literal (n : nat) :
  erase_line n =
    String "013"%char
      (string_of_list_ascii (replicate n " "%char) +:+ String "013"%char EmptyString).
Proof. unfold erase_line, carriage_return. by rewrite spaces_literal. Qed.

Lemma erase_line_before_literal (vs : validation_set) (i : nat) :
  erase_line (strlen_before vs i) =
    String "013"%char
      (string_of_list_ascii
         (replicate
            match i with
            | O => 0%nat
            | S j => String.length
                       ("Finished: " +:+ pretty j +:+ " / " +:+ pretty (ndata vs))
            end " "%char)
       +:+ String "013"%char EmptyString).
Proof. rewrite erase_line_literal. by destruct i. Qed.

Lemma output_calls_app (t1 t2 : list event) :
  output_calls (t1 ++ t2) = output_calls t1 ++ output_calls t2.
Proof.
  induction t1 as [|e t1 IH]; simpl; [done|].
  destruct (is_output_call e); simpl; by rewrite IH.
Qed.

Lemma output_calls_nil_Forall (t : list event) :
  Forall (λ e, is_output_call e = false) t → output_calls t = [].
Proof. induction 1 as [|e t He _ IH]; simpl; [done|]. by rewrite He. Qed.

Lemma prologue_no_output (args : Args) (v f : string) (vs : validation_set) :
  output_calls (parse_phase ++ backend_phase args ++ loader_phase args v ++
                model_phase args f vs) = [].
Proof.
  apply output_calls_nil_Forall.
  eapply Forall_impl; [apply prologue_stages|].
  intros e He. simpl in He. destruct e; simpl in *; try done; lia.
Qed.

(** The output calls of the loop on the images [j .. j+n-1]. *)
Lemma output_calls_loop_phase (vs : validation_set) (model : network)
    (its : list image) (j : nat) :
  output_calls (loop_phase vs model (strlen_before vs j) (enumerate_from j its)) =
    flat_map (λ i, [ EvStdoutWrite (erase_line (strlen_before vs i));
                     EvStdoutWrite (prt_str i (ndata vs));
                     EvStdoutFlush ])
             (seq j (length its)).
Proof.
  revert j. induction its as [|it its IH]; intros j; [done|].
  simpl enumerate_from. rewrite loop_phase_cons, output_calls_app.
  change (String.length (prt_str j (ndata vs))) with (strlen_before vs (S j)).
  rewrite IH. reflexivity.
Qed.

(** ** The claims *)

(** C1 — Invalid configuration (no model file, no ['val'] entry in the
    manifest, or a batch size other than 1) ends the run with an
    [AssertionError] right after argument parsing: the only call made is
    the parse itself, so no backend is built, no data is loaded, and
    nothing is retried or recovered. *)
Theorem invalid_config_aborts_by_assertion (py : python) (argv : Args) :
  model_file argv = None ∨ manifest argv !! "val" = None ∨ batch_size argv ≠ 1 →
  trace (inference py argv) = [EvParseArgs] ∧
  ∃ msg, msg ∈ assertion_messages ∧
         outcome (inference py argv) = inl (AssertionError msg).
Proof.
  intros Hbad. destruct (inference_invalid py argv Hbad) as (msg & Hin & ->).
  split; [reflexivity|]. by exists msg.
Qed.

(** C6 — Without [--output_dir] the script sets [args.output_dir] to
    [os.path.join(args.data_dir, 'frcn_output')]; a supplied value is kept;
    no other argument changes. *)
Theorem output_dir_defaults_under_data_dir (args : Args) :
  output_dir (resolve_output_dir args) =
    Some (match output_dir args with
          | None => os_path_join (data_dir args) "frcn_output"
          | Some d => d
          end) ∧
  resolve_output_dir args = set_output_dir (output_dir (resolve_output_dir args)) args ∧
  os_path_join (data_dir args) "frcn_output" =
    (if bool_decide (data_dir args = EmptyString) || ends_with_sep (data_dir args)
     then data_dir args +:+ "frcn_output"
     else data_dir args +:+ "/" +:+ "frcn_output").
Proof.
  unfold resolve_output_dir.
  destruct args as [mf mn bs dd nz [d|] w h]; simpl; repeat split.
Qed.

(** C8 — Under Python 3 a run that passes the assertions stops with
    [NameError: xrange] when the accumulators are set up: the trace ends
    with the model phase and contains no call of the loop.  In any run, a
    call of the loop means the interpreter is Python 2. *)
Theorem python3_stops_at_xrange (argv : Args) (v f : string) :
  model_file argv = Some f →
  manifest argv !! "val" = Some v →
  batch_size argv = 1 →
  let args := resolve_output_dir argv in
  let vs := load_dataset (loader_config_of args v) in
  outcome (inference Py3 argv) = inl (NameError "xrange") ∧
  trace (inference Py3 argv) =
    parse_phase ++ backend_phase args ++ loader_phase args v ++ model_phase args f vs ∧
  Forall (λ e, stage_of e ≠ StLoop ∧ stage_of e ≠ StEval) (trace (inference Py3 argv)) ∧
  count is_fprop (trace (inference Py3 argv)) = 0%nat ∧
  (∀ py' argv' e, e ∈ trace (inference py' argv') → stage_of e = StLoop → py' = Py2).
Proof.
  intros Hf Hv Hb args vs.
  rewrite (inference_Py3 argv v f) by done. fold args vs.
  split; [done|]. split; [done|]. split; [|split].
  - eapply Forall_impl; [apply prologue_stages|].
    intros e He. simpl in He. split; intros Hs; rewrite Hs in He; simpl in He; lia.
  - unfold trace, model_phase; simpl. by destruct (normalize args).
  - apply loop_event_Py2.
Qed.

(** C4 — With a valid configuration, [util.scale_bbreg_weights] is called
    (with means [0, 0, 0, 0] and standard deviations [0.1, 0.1, 0.2, 0.2])
    exactly when [--normalize] is given, and then once; every forward pass
    runs the rescaled model in that case and, without the flag, the model
    as loaded from the model file and initialized. *)
Theorem normalize_flag_controls_scaling (py : python) (argv : Args) (v f : string) :
  model_file argv = Some f →
  manifest argv !! "val" = Some v →
  batch_size argv = 1 →
  let args := resolve_output_dir argv in
  let vs := load_dataset (loader_config_of args v) in
  let t := trace (inference py argv) in
  ((∃ e, e ∈ t ∧ is_scale_bbreg e = true) ↔ normalize argv = true) ∧
  (∀ e, e ∈ t → is_scale_bbreg e = true →
        e = EvScaleBBRegWeights [0; 0; 0; 0]%Q [1 # 10; 1 # 10; 2 # 10; 2 # 10]%Q
                                (num_classes vs)) ∧
  count is_scale_bbreg t = (if normalize argv then 1 else 0)%nat ∧
  (∀ m x, EvFprop m x ∈ t →
          m = if normalize argv
              then scale_bbreg_weights (loaded_model f vs) [0; 0; 0; 0]%Q
                     [1 # 10; 1 # 10; 2 # 10; 2 # 10]%Q (num_classes vs)
              else loaded_model f vs).
Proof.
  intros Hf Hv Hb args vs t.
  destruct (resolve_output_dir_frame argv) as (_ & _ & _ & _ & En & _).
  fold args in En. rewrite <- En.
  pose proof (run_inference_model py vs (inference_model args f vs)) as Hrest.
  rewrite Forall_forall in Hrest.
  assert (t = (parse_phase ++ backend_phase args ++ loader_phase args v ++
               model_phase args f vs) ++
              trace (run_inference py vs (inference_model args f vs))) as Ht.
  { unfold t. by rewrite (inference_valid py argv v f). }
  rewrite Ht. split; [split|split; [|split]].
  - intros (e & Hin & Hs). apply elem_of_app in Hin as [Hin|Hin].
    + by destruct (setup_scale_event args v f vs e Hin Hs).
    + destruct (Hrest e Hin) as [Hno _]. congruence.
  - intros Hn.
    exists (EvScaleBBRegWeights bbtarget_means bbtarget_stds (num_classes vs)).
    split; [|reflexivity].
    apply elem_of_app. left. by apply setup_has_scale.
  - intros e Hin Hs. apply elem_of_app in Hin as [Hin|Hin].
    + by destruct (setup_scale_event args v f vs e Hin Hs).
    + destruct (Hrest e Hin) as [Hno _]. congruence.
  - rewrite count_app, setup_count_scale.
    rewrite (count_0_Forall is_scale_bbreg (trace _)); [lia|].
    apply Forall_forall. intros e Hin. by destruct (Hrest e Hin).
  - intros m x Hin. apply elem_of_app in Hin as [Hin|Hin].
    + pose proof (prologue_not_loop args v f vs) as Hp.
      rewrite Forall_forall in Hp. by destruct (Hp _ Hin).
    + destruct (Hrest _ Hin) as [_ Hm]. by rewrite (Hm m x eq_refl).
Qed.

(** C9 — The value of [args.output_dir] has no effect on the run: with any
    other value (or none) the script makes the same calls with the same
    arguments and ends the same way, provided the keyword extraction for
    [gen_backend], the one place the whole namespace is handed to, does
    not select [output_dir]. *)
Theorem output_dir_never_read (py : python) (argv : Args) (d : option string) :
  (∀ a d', extract_valid_args (set_output_dir d' a) = extract_valid_args a) →
  inference py (set_output_dir d argv) = inference py argv.
Proof.
  intros Hkw.
  destruct (resolve_output_dir_frame argv) as (E1 & E2 & E3 & E4 & E5 & E6 & E7).
  destruct (resolve_output_dir_frame (set_output_dir d argv))
    as (D1 & D2 & D3 & D4 & D5 & D6 & D7).
  simpl in D1, D2, D3, D4, D5, D6, D7.
  assert (extract_valid_args (resolve_output_dir (set_output_dir d argv)) =
          extract_valid_args (resolve_output_dir argv)) as Ekw.
  { rewrite (resolve_output_dir_set (set_output_dir d argv)),
            (resolve_output_dir_set argv), !Hkw. done. }
  destruct (config_cases argv) as [(v & f & Hf & Hv & Hb)|Hbad].
  - rewrite (inference_valid py argv v f) by done.
    rewrite (inference_valid py (set_output_dir d argv) v f) by done.
    unfold backend_phase, loader_phase, model_phase, loader_config_of,
      inference_model, normalize_model.
    rewrite Ekw, D4, D5, D6, D7, E4, E5, E6, E7. reflexivity.
  - destruct (check_config_invalid (resolve_output_dir argv)) as (msg & _ & Hc).
    { by rewrite E1, E2, E3. }
    rewrite (inference_check_fail py argv _ Hc).
    apply inference_check_fail. rewrite <- Hc.
    apply check_config_fields; congruence.
Qed.

(** C2 — The calls of every run follow the order of the pipeline: argument
    parsing, backend, data loader, model, per-image loop, evaluation, with
    at most one call of [voc_eval].  A run that returns has gone through
    all of it: its trace is the six phases in that order, with one forward
    pass and one box decoding for each image the loader yields, and
    exactly one call of [voc_eval], which is its last call. *)
Theorem linear_pipeline (py : python) (argv : Args) :
  StronglySorted stage_le (trace (inference py argv)) ∧
  (count is_voc_eval (trace (inference py argv)) ≤ 1)%nat ∧
  (outcome (inference py argv) = inr tt →
   ∃ v f dets gts,
     model_file argv = Some f ∧ manifest argv !! "val" = Some v ∧
     let args := resolve_output_dir argv in
     let vs := load_dataset (loader_config_of args v) in
     let model := inference_model args f vs in
     trace (inference py argv) =
       parse_phase ++ backend_phase args ++ loader_phase args v ++
       model_phase args f vs ++ loop_phase vs model 0 (enumerate (items vs)) ++
       eval_phase vs dets gts ∧
     (∀ strlen i it,
        count is_fprop (image_phase vs model strlen i it) = 1%nat ∧
        count is_get_bboxes (image_phase vs model strlen i it) = 1%nat) ∧
     count is_fprop (trace (inference py argv)) = length (items vs) ∧
     count is_get_bboxes (trace (inference py argv)) = length (items vs) ∧
     count is_voc_eval (trace (inference py argv)) = 1%nat ∧
     last (trace (inference py argv)) = Some (EvVocEval dets gts (CLASSES vs) true)).
Proof.
  split; [apply inference_sorted|]. split; [apply inference_voc_eval_le_1|].
  intros Hout.
  apply inference_inr in Hout as (v & f & st' & -> & Hf & Hv & Hb & Hloop & Htr).
  exists v, f, (all_boxes st'), (all_gt_boxes st').
  split; [done|]. split; [done|]. intros args vs model.
  fold args vs model in Htr. rewrite Htr.
  split; [by rewrite <- !app_assoc|]. split; [done|].
  apply complete_trace_counts.
Qed.

(** C3 — [all_boxes] is created with one entry per image ([ndata] of
    them), each a list of [num_classes] empty lists, so that
    [all_boxes[i][c]] is the entry of image [i] and class [c];
    [all_gt_boxes] is created with one entry per image.  In a run that
    returns, the one call of [voc_eval] receives the two accumulators as
    the loop has left them, each still [ndata] entries long. *)
Theorem accumulators_reach_voc_eval (py : python) (argv : Args) (v : string) :
  manifest argv !! "val" = Some v →
  let args := resolve_output_dir argv in
  let vs := load_dataset (loader_config_of args v) in
  length (init_all_boxes vs) = ndata vs ∧
  (∀ i b, init_all_boxes vs !! i = Some b →
          length b = num_classes vs ∧ Forall (λ c, c = []) b) ∧
  (∀ i c, (i < ndata vs)%nat → (c < num_classes vs)%nat →
          init_all_boxes vs !! i ≫= (.!! c) = Some []) ∧
  length (init_all_gt_boxes vs) = ndata vs ∧
  (∀ i g, init_all_gt_boxes vs !! i = Some g → g = GtEmpty) ∧
  make_accumulators Py2 vs = ret (initial_accum vs) ∧
  (outcome (inference py argv) = inr tt →
   ∃ f st',
     model_file argv = Some f ∧
     outcome (run_loop py vs (inference_model args f vs) (initial_accum vs)) = inr st' ∧
     last (trace (inference py argv)) =
       Some (EvVocEval (all_boxes st') (all_gt_boxes st') (CLASSES vs) true) ∧
     count is_voc_eval (trace (inference py argv)) = 1%nat ∧
     length (all_boxes st') = ndata vs ∧
     length (all_gt_boxes st') = ndata vs).
Proof.
  intros Hv args vs. unfold init_all_boxes, init_all_gt_boxes.
  split; [apply length_replicate|]. split; [|split; [|split; [|split; [|split]]]].
  - intros i b [-> _]%lookup_replicate. rewrite length_replicate.
    split; [done|]. apply Forall_replicate. done.
  - intros i c Hi Hc. rewrite lookup_replicate_2 by done. simpl.
    by apply lookup_replicate_2.
  - apply length_replicate.
  - by intros i g [-> _]%lookup_replicate.
  - reflexivity.
  - intros Hout.
    apply inference_inr in Hout as (v' & f & st' & -> & Hf & Hv' & Hb & Hloop & Htr).
    assert (v' = v) as -> by congruence. fold args vs in Hloop, Htr.
    exists f, st'. split; [done|]. split; [done|].
    destruct (complete_trace_counts args v f vs (inference_model args f vs)
                (all_boxes st') (all_gt_boxes st')) as (_ & _ & Hc & Hl).
    rewrite Htr. split; [done|]. split; [done|].
    destruct (run_loop_lengths Py2 vs _ st' Hloop) as (H1 & H2 & _). done.
Qed.

(** C5 — With a valid configuration, a run processes the first [k] images
    the loader yields (all of them when it returns; [k] is the number of
    forward passes).  What it writes to standard output is, for each of
    these images in turn, the erase string of line 123 (a carriage
    return, character 13, then one blank for every character of the
    previous progress string, then a carriage return) and then
    [Finished: i / num_images].  The calls by which the script itself
    emits anything are exactly these two writes and a flush of
    [sys.stdout] per image and, in a run that returns, the one logger
    call [Evaluating detections]: it opens and writes no file.  A run
    that returns ends with that logger call followed by [voc_eval] with
    [use_07_metric=True], and these are its only calls of the evaluation
    stage; a run that does not return makes neither. *)
Theorem progress_and_evaluation_output (py : python) (argv : Args) (v f : string) :
  model_file argv = Some f →
  manifest argv !! "val" = Some v →
  batch_size argv = 1 →
  let args := resolve_output_dir argv in
  let vs := load_dataset (loader_config_of args v) in
  let t := trace (inference py argv) in
  let progress (i : nat) : string :=
    "Finished: " +:+ pretty i +:+ " / " +:+ pretty (ndata vs) in
  let erase (i : nat) : string :=
    String "013"%char
      (string_of_list_ascii
         (replicate
            match i with
            | O => 0%nat
            | S j => String.length
                       ("Finished: " +:+ pretty j +:+ " / " +:+ pretty (ndata vs))
            end " "%char)
       +:+ String "013"%char EmptyString) in
  ∃ k, (k ≤ length (items vs))%nat ∧
    count is_fprop t = k ∧
    stdout_of t = flat_map (λ i, [erase i; progress i]) (seq 0 k) ∧
    output_calls t =
      flat_map (λ i, [ EvStdoutWrite (erase i); EvStdoutWrite (progress i);
                       EvStdoutFlush ])
               (seq 0 k) ++
      match outcome (inference py argv) with
      | inr _ => [EvDisplay "Evaluating detections"]
      | inl _ => []
      end ∧
    (outcome (inference py argv) = inr tt →
       k = length (items vs) ∧
       ∃ t0 dets gts,
         t = t0 ++ [ EvDisplay "Evaluating detections";
                     EvVocEval dets gts (CLASSES vs) true ] ∧
         Forall (λ e, stage_of e ≠ StEval) t0) ∧
    (outcome (inference py argv) ≠ inr tt → Forall (λ e, stage_of e ≠ StEval) t).
Proof.
  intros Hf Hv Hb args vs t progress erase.
  pose proof (prologue_not_loop args v f vs) as Hnl.
  pose proof (prologue_not_eval args v f vs) as Hne.
  pose proof (prologue_no_output args v f vs) as Hno.
  assert (∀ n, flat_map (λ i, [erase_line (strlen_before vs i); prt_str i (ndata vs)])
                        (seq 0 n) =
               flat_map (λ i, [erase i; progress i]) (seq 0 n)) as Htext.
  { intros n. apply flat_map_ext. intros i.
    by rewrite erase_line_before_literal. }
  assert (∀ n, flat_map (λ i, [ EvStdoutWrite (erase_line (strlen_before vs i));
                                EvStdoutWrite (prt_str i (ndata vs));
                                EvStdoutFlush ]) (seq 0 n) =
               flat_map (λ i, [ EvStdoutWrite (erase i); EvStdoutWrite (progress i);
                                EvStdoutFlush ]) (seq 0 n)) as Hcalls.
  { intros n. apply flat_map_ext. intros i.
    by rewrite erase_line_before_literal. }
  destruct py.
  2:{ exists 0%nat. unfold t. rewrite (inference_Py3 argv v f) by done.
      fold args vs. rewrite trace_pair, outcome_pair.
      split; [lia|]. split; [|split; [|split; [|split]]]; try done.
      - by apply (count_0_stage _ StLoop _ is_fprop_stage).
      - by apply stdout_of_nil_Forall. }
  destruct (inference_Py2_cases argv v f Hf Hv Hb)
    as (k & Hk & [(e & Heq)|(st' & -> & Hl & Heq)]); fold args vs in Hk, Heq;
    unfold t; rewrite Heq, trace_pair, outcome_pair.
  - exists k. split; [done|]. split; [|split; [|split; [|split]]]; try done.
    + rewrite count_app, (count_0_stage _ StLoop _ is_fprop_stage Hnl).
      rewrite count_loop_phase by done. rewrite length_take.
      unfold enumerate. rewrite enumerate_from_length. lia.
    + rewrite stdout_of_app, (stdout_of_nil_Forall _ Hnl).
      unfold enumerate. rewrite enumerate_from_take.
      change 0%nat with (strlen_before vs 0) at 1.
      rewrite stdout_of_loop_phase, length_take. simpl app.
      replace (k `min` length (items vs))%nat with k by lia. apply Htext.
    + rewrite output_calls_app, Hno.
      unfold enumerate. rewrite enumerate_from_take.
      change 0%nat with (strlen_before vs 0) at 1.
      rewrite output_calls_loop_phase, length_take, app_nil_r. simpl app.
      replace (k `min` length (items vs))%nat with k by lia. apply Hcalls.
    + intros _. apply Forall_app. split; [done|]. apply loop_phase_not_eval.
  - exists (length (items vs)). split; [done|].
    destruct (complete_trace_counts args v f vs (inference_model args f vs)
                (all_boxes st') (all_gt_boxes st')) as (Hc & _).
    split; [done|]. split; [|split; [|split]]; try done.
    + rewrite stdout_of_app, (stdout_of_nil_Forall _ Hnl), stdout_of_app.
      unfold enumerate.
      change 0%nat with (strlen_before vs 0) at 1.
      rewrite stdout_of_loop_phase. simpl. rewrite app_nil_r. apply Htext.
    + rewrite output_calls_app, Hno, output_calls_app.
      unfold enumerate.
      change 0%nat with (strlen_before vs 0) at 1.
      rewrite output_calls_loop_phase, Hcalls. reflexivity.
    + intros _. split; [done|].
      eexists _, (all_boxes st'), (all_gt_boxes st'). rewrite app_assoc.
      split; [reflexivity|]. apply Forall_app. split; [done|].
      apply loop_phase_not_eval.
Qed.

(** C7 — An iteration that completes for image index [i] has replaced
    entry [i] of [all_boxes] by the decoded boxes and entry [i] of
    [all_gt_boxes] by the assembled ground-truth array and has left every
    other entry of both as it was.  The loop runs its body at the indices
    0, 1, ... in turn, each once; so when it has completed, the entry of
    every image holds what its own iteration stored, and the entries that
    belong to no image are as created. *)
Theorem loop_assigns_own_index (py : python) (vs : validation_set) (model : network)
    (st' : accum) :
  outcome (run_loop py vs model (initial_accum vs)) = inr st' →
  (∀ i it s s', outcome (loop_body py vs model i it s) = inr s' →
     all_boxes s' = <[i := decoded_boxes vs model it]> (all_boxes s) ∧
     (∃ gt, assemble_gt it = inr gt ∧
            all_gt_boxes s' = <[i := GtArray gt]> (all_gt_boxes s)) ∧
     (∀ j, j ≠ i → all_boxes s' !! j = all_boxes s !! j ∧
                   all_gt_boxes s' !! j = all_gt_boxes s !! j)) ∧
  (enumerate (items vs)).*1 = seq 0 (length (items vs)) ∧
  NoDup (enumerate (items vs)).*1 ∧
  (length (items vs) ≤ ndata vs)%nat ∧
  (∀ i it, items vs !! i = Some it →
     all_boxes st' !! i = Some (decoded_boxes vs model it) ∧
     ∃ gt, assemble_gt it = inr gt ∧ all_gt_boxes st' !! i = Some (GtArray gt)) ∧
  (∀ j, (length (items vs) ≤ j)%nat →
     all_boxes st' !! j = init_all_boxes vs !! j ∧
     all_gt_boxes st' !! j = init_all_gt_boxes vs !! j) ∧
  (length (items vs) = ndata vs →
   ∀ i, (i < ndata vs)%nat →
     ∃ it gt, items vs !! i = Some it ∧ assemble_gt it = inr gt ∧
              all_boxes st' !! i = Some (decoded_boxes vs model it) ∧
              all_gt_boxes st' !! i = Some (GtArray gt)).
Proof.
  intros Hout.
  pose proof (run_loop_lengths py vs model st' Hout) as (_ & _ & Hle).
  unfold run_loop, enumerate in Hout.
  apply for_each_inr in Hout as (_ & _ & _ & Hframe & Hset).
  assert (∀ i it, items vs !! i = Some it →
     all_boxes st' !! i = Some (decoded_boxes vs model it) ∧
     ∃ gt, assemble_gt it = inr gt ∧ all_gt_boxes st' !! i = Some (GtArray gt)) as Hall.
  { intros i it Hit. apply (Hset i it Hit). }
  split; [|split; [|split; [|split; [|split; [|split]]]]]; try done.
  - intros i it s s' Hb.
    apply loop_body_inr in Hb as (_ & _ & _ & gt & Hgt & ->). simpl.
    split; [done|]. split; [by exists gt|].
    intros j Hj. by rewrite !list_lookup_insert_ne.
  - apply enumerate_from_fst.
  - unfold enumerate. rewrite enumerate_from_fst. apply NoDup_seq.
  - intros j Hj. apply Hframe. simpl. lia.
  - intros Hlen i Hi.
    destruct (lookup_lt_is_Some_2 (items vs) i) as [it Hit]; [lia|].
    destruct (Hall i it Hit) as (Hb & gt & Hgt & Hg). by exists it, gt.
Qed.

(** C10 — For an image whose metadata buffers hold at least
    [num_gt_boxes] rows, of widths 4 (boxes), 1 (classes) and 1
    (difficult flags), the iteration completes and stores at
    [all_gt_boxes[mb_idx]] an array of exactly [num_gt_boxes] rows and 7
    columns: row [r] is row [r] of the boxes with every coordinate divided
    by [im_scale], then the class, then the difficult flag, then [False]
    for the detected column. *)
Theorem ground_truth_array_shape (vs : validation_set) (model : network)
    (mb_idx : nat) (it : image) (st : accum) :
  (0 ≤ num_gt_boxes it)%Z →
  (Z.to_nat (num_gt_boxes it) ≤ nrows (gt_boxes it))%nat →
  (Z.to_nat (num_gt_boxes it) ≤ nrows (gt_classes it))%nat →
  (Z.to_nat (num_gt_boxes it) ≤ nrows (difficult it))%nat →
  ncols (gt_boxes it) = 4%nat → wf_array (gt_boxes it) →
  ncols (gt_classes it) = 1%nat → wf_array (gt_classes it) →
  ncols (difficult it) = 1%nat → wf_array (difficult it) →
  (mb_idx < length (all_boxes st))%nat →
  (mb_idx < length (all_gt_boxes st))%nat →
  ∃ st' gt,
    outcome (loop_body Py2 vs model mb_idx it st) = inr st' ∧
    all_gt_boxes st' !! mb_idx = Some (GtArray gt) ∧
    Z.of_nat (nrows gt) = num_gt_boxes it ∧
    ncols gt = 7%nat ∧
    wf_array gt ∧
    ∀ r, (r < nrows gt)%nat →
      ∃ b c d,
        rows (gt_boxes it) !! r = Some b ∧ length b = 4%nat ∧
        rows (gt_classes it) !! r = Some c ∧ length c = 1%nat ∧
        rows (difficult it) !! r = Some d ∧ length d = 1%nat ∧
        rows gt !! r =
          Some (((λ x, fdiv x (im_scale it)) <$> b) ++ c ++ d ++ [of_bool false]).
Proof.
  intros Hn Hb Hc Hd Wb WFb Wc WFc Wd WFd Hi Hj.
  pose proof (assemble_gt_eq it Hn Hb Hc Hd) as Hgt. simpl in Hgt.
  set (k := Z.to_nat (num_gt_boxes it)) in *.
  match type of Hgt with _ = inr ?g => set (gt := g) in * end.
  assert (nrows gt = k) as Hrows.
  { unfold nrows, gt. simpl. unfold nrows in Hb, Hc, Hd.
    rewrite !length_zip_with, !length_fmap, !length_take, length_replicate. lia. }
  assert (∀ r, (r < k)%nat →
      ∃ b c d,
        rows (gt_boxes it) !! r = Some b ∧ length b = 4%nat ∧
        rows (gt_classes it) !! r = Some c ∧ length c = 1%nat ∧
        rows (difficult it) !! r = Some d ∧ length d = 1%nat ∧
        rows gt !! r =
          Some (((λ x, fdiv x (im_scale it)) <$> b) ++ c ++ d ++ [of_bool false]))
    as Hrow.
  { intros r Hr. unfold nrows in Hb, Hc, Hd.
    destruct (lookup_lt_is_Some_2 (rows (gt_boxes it)) r) as [b Eb]; [lia|].
    destruct (lookup_lt_is_Some_2 (rows (gt_classes it)) r) as [c Ec]; [lia|].
    destruct (lookup_lt_is_Some_2 (rows (difficult it)) r) as [d Ed]; [lia|].
    exists b, c, d.
    split; [done|]. split; [by rewrite (wf_array_lookup _ _ _ WFb Eb)|].
    split; [done|]. split; [by rewrite (wf_array_lookup _ _ _ WFc Ec)|].
    split; [done|]. split; [by rewrite (wf_array_lookup _ _ _ WFd Ed)|].
    unfold gt. simpl.
    rewrite !lookup_zip_with, !list_lookup_fmap, !lookup_take_lt by done.
    rewrite Eb, Ec, Ed, lookup_replicate_2 by done. simpl.
    by rewrite <- !app_assoc. }
  eexists _, gt. split; [by apply loop_body_completes|]. simpl.
  split; [by apply list_lookup_insert_eq|].
  split; [rewrite Hrows; unfold k; lia|].
  split; [unfold gt; simpl; lia|].
  split; [|by rewrite Hrows].
  unfold wf_array. apply Forall_lookup. intros r row Hr.
  assert (r < k)%nat as Hlt by (rewrite <- Hrows; by eapply lookup_lt_Some).
  destruct (Hrow r Hlt) as (b & c & d & _ & Lb & _ & Lc & _ & Ld & Er).
  rewrite Er in Hr. injection Hr as <-.
  rewrite !length_app, length_fmap, Lb, Lc, Ld. unfold gt. simpl. lia.
Qed.

End Properties.

(** * The claims on the concrete framework *)

Lemma invalid_config_aborts_by_assertion_witness :
  (model_file demo_args_no_model = None ∨
   manifest demo_args_no_model !! "val" = None ∨
   batch_size demo_args_no_model ≠ 1) ∧
  trace (inference Py2 demo_args_no_model) = [EvParseArgs] ∧
  ∃ msg, msg ∈ assertion_messages ∧
         outcome (inference Py2 demo_args_no_model) = inl (AssertionError msg).
Proof.
  split; [left; reflexivity|].
  apply invalid_config_aborts_by_assertion. left; reflexivity.
Defined.

Lemma linear_pipeline_witness :
  outcome (inference Py2 demo_args) = inr tt ∧
  StronglySorted stage_le (trace (inference Py2 demo_args)) ∧
  count is_fprop (trace (inference Py2 demo_args)) = length (items demo_valid_set) ∧
  count is_get_bboxes (trace (inference Py2 demo_args)) = length (items demo_valid_set) ∧
  count is_voc_eval (trace (inference Py2 demo_args)) = 1%nat.
Proof.
  assert (outcome (inference Py2 demo_args) = inr tt) as Hout
    by (vm_compute; reflexivity).
  split; [exact Hout|].
  destruct (linear_pipeline Py2 demo_args) as (Hsorted & _ & Hcomplete).
  split; [exact Hsorted|].
  destruct (Hcomplete Hout) as (v & f & dets & gts & Hf & Hv & Hrest).
  injection Hf as <-. assert (v = "val.csv") as -> by (vm_compute in Hv; congruence).
  destruct Hrest as (_ & _ & H1 & H2 & H3 & _). auto.
Defined.

Lemma accumulators_reach_voc_eval_witness :
  manifest demo_args !! "val" = Some "val.csv" ∧
  outcome (inference Py2 demo_args) = inr tt ∧
  length (init_all_boxes demo_valid_set) = ndata demo_valid_set ∧
  length (init_all_gt_boxes demo_valid_set) = ndata demo_valid_set ∧
  ∃ f st',
    model_file demo_args = Some f ∧
    outcome (run_loop Py2 demo_valid_set
               (inference_model (resolve_output_dir demo_args) f demo_valid_set)
               (initial_accum demo_valid_set)) = inr st' ∧
    last (trace (inference Py2 demo_args)) =
      Some (EvVocEval (all_boxes st') (all_gt_boxes st') (CLASSES demo_valid_set) true) ∧
    count is_voc_eval (trace (inference Py2 demo_args)) = 1%nat ∧
    length (all_boxes st') = ndata demo_valid_set ∧
    length (all_gt_boxes st') = ndata demo_valid_set.
Proof.
  assert (manifest demo_args !! "val" = Some "val.csv") as Hv
    by (vm_compute; reflexivity).
  assert (outcome (inference Py2 demo_args) = inr tt) as Hout
    by (vm_compute; reflexivity).
  split; [exact Hv|]. split; [exact Hout|].
  destruct (accumulators_reach_voc_eval Py2 demo_args "val.csv" Hv)
    as (H1 & _ & _ & H2 & _ & _ & Hcomplete).
  split; [exact H1|]. split; [exact H2|]. exact (Hcomplete Hout).
Defined.

Lemma normalize_flag_controls_scaling_witness :
  model_file demo_args_normalize = Some "faster_rcnn.pkl" ∧
  manifest demo_args_normalize !! "val" = Some "val.csv" ∧
  batch_size demo_args_normalize = 1 ∧
  count is_scale_bbreg (trace (inference Py2 demo_args_normalize)) = 1%nat ∧
  ∀ m x, EvFprop m x ∈ trace (inference Py2 demo_args_normalize) →
         m = ["scale"; "initialize"; "load faster_rcnn.pkl"; "build"].
Proof.
  assert (manifest demo_args_normalize !! "val" = Some "val.csv") as Hv
    by (vm_compute; reflexivity).
  split; [reflexivity|]. split; [exact Hv|]. split; [reflexivity|].
  destruct (normalize_flag_controls_scaling Py2 demo_args_normalize
              "val.csv" "faster_rcnn.pkl" eq_refl Hv eq_refl) as (_ & _ & Hc & Hm).
  split; [exact Hc|exact Hm].
Defined.

Lemma progress_and_evaluation_output_witness :
  model_file demo_args = Some "faster_rcnn.pkl" ∧
  manifest demo_args !! "val" = Some "val.csv" ∧
  batch_size demo_args = 1 ∧
  count is_fprop (trace (inference Py2 demo_args)) = 2%nat ∧
  stdout_of (trace (inference Py2 demo_args)) =
    [ String "013"%char (String "013"%char EmptyString);
      "Finished: 0 / 2";
      String "013"%char ("               " +:+ String "013"%char EmptyString);
      "Finished: 1 / 2" ] ∧
  output_calls (trace (inference Py2 demo_args)) =
    [ EvStdoutWrite (String "013"%char (String "013"%char EmptyString));
      EvStdoutWrite "Finished: 0 / 2";
      EvStdoutFlush;
      EvStdoutWrite
        (String "013"%char ("               " +:+ String "013"%char EmptyString));
      EvStdoutWrite "Finished: 1 / 2";
      EvStdoutFlush;
      EvDisplay "Evaluating detections" ].
Proof.
  assert (manifest demo_args !! "val" = Some "val.csv") as Hv
    by (vm_compute; reflexivity).
  assert (outcome (inference Py2 demo_args) = inr tt) as Hout
    by (vm_compute; reflexivity).
  split; [reflexivity|]. split; [exact Hv|]. split; [reflexivity|].
  destruct (progress_and_evaluation_output Py2 demo_args
              "val.csv" "faster_rcnn.pkl" eq_refl Hv eq_refl)
    as (k & Hk & Hc & Hs & Ho & Hret & _).
  destruct (Hret Hout) as [Hkeq _].
  assert (k = 2%nat) as -> by (rewrite Hkeq; vm_compute; reflexivity).
  split; [exact Hc|]. split.
  - rewrite Hs. vm_compute. reflexivity.
  - rewrite Ho, Hout. vm_compute. reflexivity.
Defined.

Lemma loop_assigns_own_index_witness :
  outcome (run_loop Py2 demo_valid_set demo_model (initial_accum demo_valid_set))
    = inr demo_final_accum ∧
  (enumerate (items demo_valid_set)).*1 = seq 0 (length (items demo_valid_set)) ∧
  NoDup (enumerate (items demo_valid_set)).*1 ∧
  ∀ i, (i < ndata demo_valid_set)%nat →
    ∃ it gt,
      items demo_valid_set !! i = Some it ∧ assemble_gt it = inr gt ∧
      all_boxes demo_final_accum !! i =
        Some (decoded_boxes demo_valid_set demo_model it) ∧
      all_gt_boxes demo_final_accum !! i = Some (GtArray gt).
Proof.
  assert (outcome (run_loop Py2 demo_valid_set demo_model
                     (initial_accum demo_valid_set)) = inr demo_final_accum)
    as Hout by (vm_compute; reflexivity).
  split; [exact Hout|].
  destruct (loop_assigns_own_index Py2 demo_valid_set demo_model demo_final_accum Hout)
    as (_ & Hidx & Hnodup & _ & _ & _ & Hall).
  split; [exact Hidx|]. split; [exact Hnodup|]. apply Hall. reflexivity.
Defined.

Lemma python3_stops_at_xrange_witness :
  model_file demo_args = Some "faster_rcnn.pkl" ∧
  manifest demo_args !! "val" = Some "val.csv" ∧
  batch_size demo_args = 1 ∧
  outcome (inference Py3 demo_args) = inl (NameError "xrange") ∧
  count is_fprop (trace (inference Py3 demo_args)) = 0%nat.
Proof.
  assert (manifest demo_args !! "val" = Some "val.csv") as Hv
    by (vm_compute; reflexivity).
  split; [reflexivity|]. split; [exact Hv|]. split; [reflexivity|].
  destruct (python3_stops_at_xrange demo_args "val.csv" "faster_rcnn.pkl"
              eq_refl Hv eq_refl) as (Ho & _ & _ & Hc & _).
  split; [exact Ho|exact Hc].
Defined.

Lemma output_dir_never_read_witness :
  (∀ a d', extract_valid_args (set_output_dir d' a) = extract_valid_args a) ∧
  inference Py2 (set_output_dir (Some "/tmp/out") demo_args) = inference Py2 demo_args.
Proof.
  assert (∀ a d', extract_valid_args (set_output_dir d' a) = extract_valid_args a)
    as Hkw by (intros a d'; reflexivity).
  split; [exact Hkw|]. by apply output_dir_never_read.
Defined.

Lemma ground_truth_array_shape_witness :
  (0 ≤ num_gt_boxes demo_item)%Z ∧
  ∃ st' gt,
    outcome (loop_body Py2 demo_valid_set demo_model 0 demo_item
               (initial_accum demo_valid_set)) = inr st' ∧
    all_gt_boxes st' !! 0%nat = Some (GtArray gt) ∧
    Z.of_nat (nrows gt) = num_gt_boxes demo_item ∧
    ncols gt = 7%nat ∧
    wf_array gt.
Proof.
  split; [done|].
  destruct (ground_truth_array_shape demo_valid_set demo_model 0 demo_item
              (initial_accum demo_valid_set))
    as (st' & gt & H1 & H2 & H3 & H4 & H5 & _).
  - done.
  - vm_compute; lia.
  - vm_compute; lia.
  - vm_compute; lia.
  - reflexivity.
  - repeat constructor.
  - reflexivity.
  - repeat constructor.
  - reflexivity.
  - repeat constructor.
  - vm_compute; lia.
  - vm_compute; lia.
  - by exists st', gt.
Defined.

(** * Further properties of the script *)

Section Outcomes.
Context {F : Framework}.

(** ** How the script's own operations fail *)

Lemma list_assign_inl {A} (l : list A) (i : nat) (v : A) (e : exn) :
  list_assign l i v = inl e → e = IndexError ∧ (length l ≤ i)%nat.
Proof.
  unfold list_assign. case_bool_decide; intros [= <-]. split; [done|lia].
Qed.

Lemma assemble_gt_inl (it : image) (e : exn) :
  assemble_gt it = inl e → e = ValueError.
Proof.
  unfold assemble_gt, hstack. destruct (forallb _ _); by intros [= <-].
Qed.

(** The stacking succeeds exactly when the three slices have as many rows
    as the detected column. *)
Lemma assemble_gt_inr_iff (it : image) :
  (∃ gt, assemble_gt it = inr gt) ↔
  length (py_slice_to (num_gt_boxes it) (rows (gt_boxes it))) =
    Z.to_nat (num_gt_boxes it) ∧
  length (py_slice_to (num_gt_boxes it) (rows (gt_classes it))) =
    Z.to_nat (num_gt_boxes it) ∧
  length (py_slice_to (num_gt_boxes it) (rows (difficult it))) =
    Z.to_nat (num_gt_boxes it).
Proof.
  unfold assemble_gt, hstack, nrows, array_div, array_slice_to, newaxis_column,
    py_list_repeat.
  cbn [rows forallb]. rewrite !length_fmap, length_replicate.
  destruct (Nat.eqb_spec
    (length (py_slice_to (num_gt_boxes it) (rows (gt_classes it))))
    (length (py_slice_to (num_gt_boxes it) (rows (gt_boxes it))))) as [E1|E1];
  destruct (Nat.eqb_spec
    (length (py_slice_to (num_gt_boxes it) (rows (difficult it))))
    (length (py_slice_to (num_gt_boxes it) (rows (gt_boxes it))))) as [E2|E2];
  destruct (Nat.eqb_spec (Z.to_nat (num_gt_boxes it))
    (length (py_slice_to (num_gt_boxes it) (rows (gt_boxes it))))) as [E3|E3];
  simpl; split; try (intros [gt [=]]); try (intros (? & ? & ?)); try lia;
  eauto.
Qed.

Lemma loop_body_IndexError_boxes (vs : validation_set) (model : network) (i : nat)
    (it : image) (st : accum) :
  (length (all_boxes st) ≤ i)%nat →
  loop_body Py2 vs model i it st =
    (image_phase vs model (last_strlen st) i it, inl IndexError).
Proof.
  intros Hi. rewrite loop_body_Py2. unfold mbind, M_bind, lift, list_assign.
  rewrite bool_decide_eq_false_2 by lia. reflexivity.
Qed.

Lemma loop_body_ValueError (vs : validation_set) (model : network) (i : nat)
    (it : image) (st : accum) :
  (i < length (all_boxes st))%nat →
  ¬ (∃ gt, assemble_gt it = inr gt) →
  loop_body Py2 vs model i it st =
    (image_phase vs model (last_strlen st) i it, inl ValueError).
Proof.
  intros Hi Hno. rewrite loop_body_Py2. unfold mbind, M_bind, lift, list_assign.
  rewrite (bool_decide_eq_true_2 _ Hi).
  destruct (assemble_gt it) as [e|gt] eqn:Hgt; [|destruct Hno; eauto].
  apply assemble_gt_inl in Hgt as ->. reflexivity.
Qed.

Lemma loop_body_IndexError_gt (vs : validation_set) (model : network) (i : nat)
    (it : image) (st : accum) (gt : ndarray scalar) :
  (i < length (all_boxes st))%nat →
  assemble_gt it = inr gt →
  (length (all_gt_boxes st) ≤ i)%nat →
  loop_body Py2 vs model i it st =
    (image_phase vs model (last_strlen st) i it, inl IndexError).
Proof.
  intros Hi Hgt Hj. rewrite loop_body_Py2. unfold mbind, M_bind, lift, list_assign.
  rewrite (bool_decide_eq_true_2 _ Hi), Hgt.
  unfold after, bind. simpl. rewrite bool_decide_eq_false_2 by lia. reflexivity.
Qed.

Lemma loop_body_inl (vs : validation_set) (model : network) (i : nat)
    (it : image) (st : accum) (e : exn) :
  outcome (loop_body Py2 vs model i it st) = inl e →
  e = IndexError ∨ e = ValueError.
Proof.
  destruct (decide (i < length (all_boxes st))%nat) as [Hi|Hi].
  2:{ rewrite loop_body_IndexError_boxes by lia. intros [= <-]. by left. }
  destruct (assemble_gt it) as [e'|gt] eqn:Hgt.
  { rewrite loop_body_ValueError; [intros [= <-]; by right|done|].
    intros [gt Hgt']. congruence. }
  destruct (decide (i < length (all_gt_boxes st))%nat) as [Hj|Hj].
  - by rewrite (loop_body_completes vs model i it st gt).
  - rewrite (loop_body_IndexError_gt vs model i it st gt) by (done || lia).
    intros [= <-]. by left.
Qed.

Lemma for_each_inl (vs : validation_set) (model : network)
    (l : list (nat * image)) (st : accum) (e : exn) :
  outcome (for_each (loop_body Py2 vs model) l st) = inl e →
  e = IndexError ∨ e = ValueError.
Proof.
  revert st. induction l as [|[i it] l IH]; intros st; [done|].
  rewrite for_each_cons.
  destruct (loop_body Py2 vs model i it st) as [t [e'|s]] eqn:Hb.
  - intros [= <-]. apply (loop_body_inl vs model i it st). by rewrite Hb.
  - intros Ho. apply (IH s). exact Ho.
Qed.

(** The run after the model phase, once the loop has completed. *)
Lemma run_inference_Py2_inr (vs : validation_set) (model : network) (st' : accum) :
  outcome (run_loop Py2 vs model (initial_accum vs)) = inr st' →
  run_inference Py2 vs model =
    (loop_phase vs model 0 (enumerate (items vs)) ++
     eval_phase vs (all_boxes st') (all_gt_boxes st'), inr tt).
Proof.
  intros Hl. rewrite run_inference_Py2, (bind_inr _ _ st' Hl), evaluate_eq.
  destruct (for_each_Py2_trace vs model (enumerate (items vs)) (initial_accum vs))
    as (k & Hk & Htr & Hout).
  fold (run_loop Py2 vs model (initial_accum vs)) in Htr, Hout.
  rewrite (Hout st' Hl), take_ge in Htr by done.
  unfold after. simpl. by rewrite Htr.
Qed.

(** X1 — The script returns exactly when it runs under Python 2, the
    three assertions pass, the loader yields at most [ndata] images, and
    the metadata of every image stacks into an array. *)
Theorem inference_returns_iff (py : python) (argv : Args) :
  outcome (inference py argv) = inr tt ↔
  py = Py2 ∧
  ∃ v f,
    model_file argv = Some f ∧ manifest argv !! "val" = Some v ∧
    batch_size argv = 1 ∧
    let vs := load_dataset (loader_config_of (resolve_output_dir argv) v) in
    (length (items vs) ≤ ndata vs)%nat ∧
    Forall (λ it, ∃ gt, assemble_gt it = inr gt) (items vs).
Proof.
  split.
  - intros Hout.
    apply inference_inr in Hout as (v & f & st' & -> & Hf & Hv & Hb & Hloop & _).
    split; [done|]. exists v, f. repeat (split; [done|]).
    intros vs. fold vs in Hloop.
    destruct (run_loop_lengths Py2 vs _ st' Hloop) as (_ & _ & Hle).
    split; [done|].
    unfold run_loop, enumerate in Hloop.
    apply for_each_inr in Hloop as (_ & _ & _ & _ & Hset).
    apply Forall_lookup. intros i it Hit.
    destruct (Hset i it Hit) as (_ & gt & Hgt & _). eauto.
  - intros (-> & v & f & Hf & Hv & Hb & Hle & Hall).
    rewrite (inference_valid Py2 argv v f), outcome_after by done.
    destruct (for_each_completes
                (load_dataset (loader_config_of (resolve_output_dir argv) v))
                (inference_model (resolve_output_dir argv) f
                   (load_dataset (loader_config_of (resolve_output_dir argv) v)))
                (items (load_dataset (loader_config_of (resolve_output_dir argv) v)))
                0 (initial_accum
                     (load_dataset (loader_config_of (resolve_output_dir argv) v))))
      as [st' Hst']; [| |done|].
    + unfold initial_accum, init_all_boxes. simpl. rewrite length_replicate. lia.
    + unfold initial_accum, init_all_gt_boxes. simpl. rewrite length_replicate. lia.
    + by rewrite (run_inference_Py2_inr _ _ st').
Qed.

(** X2 — The ways the script's own statements end a run, taken from the
    point where [parse_args] has returned a namespace whose manifest is a
    dictionary and for framework calls that return.  The run returns, or
    an assertion fails (exactly when the configuration is invalid), or
    [xrange] is unbound (exactly under Python 3 with a valid
    configuration, and no other name is ever unbound), or, only under
    Python 2 with a valid configuration, a list assignment is out of
    range or [np.hstack] refuses the shapes.  The two other exceptions
    the statements of the script could raise are never reached: the
    lookup [args.manifest['val']] of line 79 never raises [KeyError],
    being guarded by line 67, and the write of an encoded string at line
    124, a [TypeError] under Python 3, lies behind the [NameError] of
    line 117. *)
Theorem inference_outcomes (py : python) (argv : Args) :
  let invalid := model_file argv = None ∨ manifest argv !! "val" = None ∨
                 batch_size argv ≠ 1 in
  let valid := ∃ v f, model_file argv = Some f ∧ manifest argv !! "val" = Some v ∧
                      batch_size argv = 1 in
  (outcome (inference py argv) = inr tt ∨
   (∃ msg, msg ∈ assertion_messages ∧
           outcome (inference py argv) = inl (AssertionError msg)) ∨
   (py = Py3 ∧ outcome (inference py argv) = inl (NameError "xrange")) ∨
   (py = Py2 ∧ outcome (inference py argv) = inl IndexError) ∨
   (py = Py2 ∧ outcome (inference py argv) = inl ValueError)) ∧
  ((∃ msg, outcome (inference py argv) = inl (AssertionError msg)) ↔ invalid) ∧
  (∀ name, outcome (inference py argv) = inl (NameError name) ↔
           name = "xrange" ∧ py = Py3 ∧ valid) ∧
  (outcome (inference py argv) = inl IndexError ∨
   outcome (inference py argv) = inl ValueError → py = Py2 ∧ valid) ∧
  (∀ key, outcome (inference py argv) ≠ inl (KeyError key)) ∧
  outcome (inference py argv) ≠ inl TypeError.
Proof.
  intros invalid valid.
  assert ((invalid ∧ ∃ msg, msg ∈ assertion_messages ∧
                     outcome (inference py argv) = inl (AssertionError msg)) ∨
          (valid ∧ py = Py3 ∧ outcome (inference py argv) = inl (NameError "xrange")) ∨
          (valid ∧ py = Py2 ∧
           (outcome (inference py argv) = inr tt ∨
            outcome (inference py argv) = inl IndexError ∨
            outcome (inference py argv) = inl ValueError))) as Hcls.
  { destruct (config_cases argv) as [(v & f & Hf & Hv & Hb)|Hbad].
    2:{ destruct (inference_invalid py argv Hbad) as (msg & Hin & ->).
        left. split; [exact Hbad|]. by exists msg. }
    assert valid as Hvalid by (exists v, f; done).
    right. destruct py.
    2:{ rewrite (inference_Py3 argv v f) by done. left. done. }
    right. split; [done|]. split; [done|].
    rewrite (inference_valid Py2 argv v f), outcome_after by done.
    destruct (outcome (run_loop Py2
                (load_dataset (loader_config_of (resolve_output_dir argv) v))
                (inference_model (resolve_output_dir argv) f
                   (load_dataset (loader_config_of (resolve_output_dir argv) v)))
                (initial_accum
                   (load_dataset (loader_config_of (resolve_output_dir argv) v)))))
      as [e|st'] eqn:Hl.
    - rewrite run_inference_Py2, (bind_inl _ _ e Hl), outcome_pair.
      apply for_each_inl in Hl as [-> | ->]; auto.
    - rewrite (run_inference_Py2_inr _ _ st' Hl). by left. }
  assert (invalid → valid → False) as Hexcl.
  { intros [H|[H|H]] (v & f & Hf & Hv & Hb); congruence. }
  split; [|split; [|split; [|split; [|split]]]].
  - destruct Hcls as [(_ & msg & Hin & H)|[(_ & -> & H)|(_ & -> & [H|[H|H]])]];
      eauto 10.
  - split.
    + intros (msg & H).
      destruct Hcls as [(Hi & _)|[(_ & _ & H')|(_ & _ & [H'|[H'|H']])]];
        [done|congruence..].
    + intros Hbad. destruct (inference_invalid py argv Hbad) as (msg & _ & ->).
      by exists msg.
  - intros name. split.
    + intros H.
      destruct Hcls as [(_ & msg & _ & H')|[(Hv & Hp & H')|(_ & _ & [H'|[H'|H']])]];
        try congruence.
      rewrite H' in H. injection H as <-. done.
    + intros (-> & -> & v & f & Hf & Hv & Hb).
      by rewrite (inference_Py3 argv v f).
  - intros H.
    destruct Hcls as [(_ & msg & _ & H')|[(_ & _ & H')|(Hv & Hp & _)]];
      [destruct H; congruence..|done].
  - intros key H.
    destruct Hcls as [(_ & msg & _ & H')|[(_ & _ & H')|(_ & _ & [H'|[H'|H']])]];
      congruence.
  - intros H.
    destruct Hcls as [(_ & msg & _ & H')|[(_ & _ & H')|(_ & _ & [H'|[H'|H']])]];
      congruence.
Qed.

End Outcomes.

Section Edges.
Context {F : Framework}.

(** X3 — The assertions are checked in the order of the text and the
    first that fails is the one reported: a missing model file is
    reported whatever the manifest and the batch size are, a missing
    ['val'] entry only when the model file is given, and a wrong batch
    size only when both are. *)
Theorem first_failed_assertion_reported (py : python) (argv : Args) :
  (model_file argv = None →
   inference py argv =
     ([EvParseArgs],
      inl (AssertionError "Model file required for Faster-RCNN testing"))) ∧
  (∀ f, model_file argv = Some f → manifest argv !! "val" = None →
   inference py argv =
     ([EvParseArgs], inl (AssertionError "Path to manifest file requred"))) ∧
  (∀ f v, model_file argv = Some f → manifest argv !! "val" = Some v →
   batch_size argv ≠ 1 →
   inference py argv =
     ([EvParseArgs],
      inl (AssertionError "Faster-RCNN only supports batch size 1"))).
Proof.
  destruct (resolve_output_dir_frame argv) as (Ef & Em & Eb & _).
  split; [|split].
  - intros Hf. apply inference_check_fail. unfold check_config.
    by rewrite Ef, Hf.
  - intros f Hf Hv. apply inference_check_fail. unfold check_config.
    by rewrite Ef, Em, Hf, Hv.
  - intros f v Hf Hv Hb. apply inference_check_fail. unfold check_config.
    rewrite Ef, Em, Eb, Hf, Hv. by rewrite (bool_decide_eq_false_2 _ Hb).
Qed.


Lemma loop_body_Py2_inr_eq (vs : validation_set) (model : network) (i : nat)
    (it : image) (st : accum) (gt : ndarray scalar) :
  (i < length (all_boxes st))%nat →
  (i < length (all_gt_boxes st))%nat →
  assemble_gt it = inr gt →
  loop_body Py2 vs model i it st =
    (image_phase vs model (last_strlen st) i it,
     inr (Accum (<[i := decoded_boxes vs model it]> (all_boxes st))
                (<[i := GtArray gt]> (all_gt_boxes st))
                (String.length (prt_str i (ndata vs))))).
Proof.
  intros Hi Hj Hgt.
  pose proof (loop_body_Py2_trace vs model i it st) as Ht.
  pose proof (loop_body_completes vs model i it st gt Hi Hj Hgt) as Ho.
  destruct (loop_body Py2 vs model i it st) as [t r]. simpl in Ht, Ho.
  by rewrite Ht, Ho.
Qed.

(** The loop on more images than the accumulators have entries. *)
Lemma for_each_overfull (vs : validation_set) (model : network) (L : nat)
    (its : list image) (k : nat) (st : accum) :
  length (all_boxes st) = L → length (all_gt_boxes st) = L →
  (k ≤ L)%nat → (L - k < length its)%nat →
  Forall (λ it, ∃ gt, assemble_gt it = inr gt) (take (L - k) its) →
  for_each (loop_body Py2 vs model) (enumerate_from k its) st =
    (loop_phase vs model (last_strlen st) (enumerate_from k (take (S (L - k)) its)),
     inl IndexError).
Proof.
  revert k st. induction its as [|it its IH]; intros k st Hb Hg Hk Hlen Hall.
  { simpl in Hlen. lia. }
  simpl enumerate_from. rewrite for_each_cons.
  destruct (decide (k = L)) as [->|Hne].
  - rewrite loop_body_IndexError_boxes by lia.
    replace (L - L)%nat with 0%nat by lia. simpl take. simpl enumerate_from.
    rewrite loop_phase_cons. simpl loop_phase. by rewrite app_nil_r.
  - replace (L - k)%nat with (S (L - S k)) in * by lia.
    simpl take in Hall. apply Forall_cons in Hall as [[gt Hgt] Hall].
    rewrite (loop_body_Py2_inr_eq vs model k it st gt) by (done || lia).
    change (take (S (S (L - S k))) (it :: its)) with (it :: take (S (L - S k)) its).
    simpl enumerate_from. rewrite loop_phase_cons.
    unfold bind. cbn [fst snd].
    rewrite (IH (S k)); [done| | | | |done]; simpl;
      rewrite ?length_insert; simpl in Hlen; lia.
Qed.

(** X5 — When the loader yields more images than [valid_set.ndata]
    announces (and the first [ndata] of them stack), the run does not
    reach the evaluation: image number [ndata] is still reported, run
    through the network and decoded, and storing its boxes then raises
    [IndexError]. *)
Theorem overfull_loader_raises_IndexError (vs : validation_set) (model : network) :
  (ndata vs < length (items vs))%nat →
  Forall (λ it, ∃ gt, assemble_gt it = inr gt) (take (ndata vs) (items vs)) →
  outcome (run_inference Py2 vs model) = inl IndexError ∧
  trace (run_inference Py2 vs model) =
    loop_phase vs model 0 (enumerate (take (S (ndata vs)) (items vs))) ∧
  count is_fprop (trace (run_inference Py2 vs model)) = S (ndata vs) ∧
  count is_voc_eval (trace (run_inference Py2 vs model)) = 0%nat.
Proof.
  intros Hlen Hall.
  assert (run_loop Py2 vs model (initial_accum vs) =
          (loop_phase vs model 0 (enumerate (take (S (ndata vs)) (items vs))),
           inl IndexError)) as Hloop.
  { unfold run_loop, enumerate.
    rewrite (for_each_overfull vs model (ndata vs)); simpl;
      rewrite ?Nat.sub_0_r; try done; try lia.
    - unfold init_all_boxes. apply length_replicate.
    - unfold init_all_gt_boxes. apply length_replicate. }
  rewrite run_inference_Py2, Hloop. unfold bind. rewrite trace_pair, outcome_pair.
  split; [done|]. split; [done|]. split.
  - rewrite count_loop_phase by done.
    unfold enumerate. rewrite enumerate_from_length, length_take. lia.
  - apply (count_0_stage _ StEval _ is_voc_eval_stage), loop_phase_not_eval.
Qed.

(** X6 — For a box count [num_gt_boxes ≥ 0] the metadata of an image
    stacks exactly when each of the three buffers holds at least
    [num_gt_boxes] rows; otherwise [np.hstack] raises [ValueError],
    because the detected column always has [num_gt_boxes] rows while a
    slice of a shorter buffer is shorter. *)
Theorem stacking_needs_enough_rows (it : image) :
  (0 ≤ num_gt_boxes it)%Z →
  ((∃ gt, assemble_gt it = inr gt) ↔
   (Z.to_nat (num_gt_boxes it) ≤ nrows (gt_boxes it))%nat ∧
   (Z.to_nat (num_gt_boxes it) ≤ nrows (gt_classes it))%nat ∧
   (Z.to_nat (num_gt_boxes it) ≤ nrows (difficult it))%nat) ∧
  (¬ ((Z.to_nat (num_gt_boxes it) ≤ nrows (gt_boxes it))%nat ∧
      (Z.to_nat (num_gt_boxes it) ≤ nrows (gt_classes it))%nat ∧
      (Z.to_nat (num_gt_boxes it) ≤ nrows (difficult it))%nat) →
   assemble_gt it = inl ValueError).
Proof.
  intros Hn.
  assert ((∃ gt, assemble_gt it = inr gt) ↔
   (Z.to_nat (num_gt_boxes it) ≤ nrows (gt_boxes it))%nat ∧
   (Z.to_nat (num_gt_boxes it) ≤ nrows (gt_classes it))%nat ∧
   (Z.to_nat (num_gt_boxes it) ≤ nrows (difficult it))%nat) as Hiff.
  { rewrite assemble_gt_inr_iff. unfold py_slice_to, nrows.
    rewrite (bool_decide_eq_true_2 _ Hn), !length_take. lia. }
  split; [exact Hiff|]. intros Hno.
  destruct (assemble_gt it) as [e|gt] eqn:Hgt.
  - by apply assemble_gt_inl in Hgt as ->.
  - destruct Hno. apply Hiff. eauto.
Qed.

(** X7 — A negative box count makes the slices [buf[:num_gt_boxes]] drop
    rows from the end while the detected column is empty: the metadata
    then stacks exactly when no buffer has more than [-num_gt_boxes]
    rows, and the array stored has no row. *)
Theorem negative_box_count_slices_from_end (it : image) :
  (num_gt_boxes it < 0)%Z →
  ((∃ gt, assemble_gt it = inr gt) ↔
   (nrows (gt_boxes it) ≤ Z.to_nat (- num_gt_boxes it))%nat ∧
   (nrows (gt_classes it) ≤ Z.to_nat (- num_gt_boxes it))%nat ∧
   (nrows (difficult it) ≤ Z.to_nat (- num_gt_boxes it))%nat) ∧
  (∀ gt, assemble_gt it = inr gt →
         nrows gt = 0%nat ∧
         ncols gt = (ncols (gt_boxes it) + ncols (gt_classes it) +
                     ncols (difficult it) + 1)%nat).
Proof.
  intros Hn. split.
  - rewrite assemble_gt_inr_iff. unfold py_slice_to, nrows.
    rewrite bool_decide_eq_false_2 by lia. rewrite !length_take. lia.
  - intros gt. unfold assemble_gt, hstack.
    destruct (forallb _ _); [|done]. intros [= <-].
    unfold nrows, newaxis_column, py_list_repeat. cbn [rows ncols foldl].
    split; [|done].
    rewrite length_zip_with, !length_fmap, length_replicate. lia.
Qed.

(** X8 — After lines 63-64 [args.output_dir] is never [None], and the
    defaulting is idempotent: applied to its own result it changes
    nothing. *)
Theorem output_dir_resolved (args : Args) :
  is_Some (output_dir (resolve_output_dir args)) ∧
  resolve_output_dir (resolve_output_dir args) = resolve_output_dir args.
Proof.
  unfold resolve_output_dir. destruct args as [? ? ? ? ? [d|] ? ?]; simpl; eauto.
Qed.

(** X9 — Under Python 3 the loop cannot get past its first image even
    where [xrange] is bound: line 124 hands an encoded [bytes] object to
    [sys.stdout.write], so the first iteration raises [TypeError] after
    the erase write and before any forward pass, whatever the
    accumulators are. *)
Theorem python3_loop_raises_TypeError (vs : validation_set) (model : network)
    (st : accum) :
  items vs ≠ [] →
  run_loop Py3 vs model st =
    ([EvStdoutWrite (erase_line (last_strlen st))], inl TypeError) ∧
  count is_fprop (trace (run_loop Py3 vs model st)) = 0%nat.
Proof.
  intros Hne. unfold run_loop, enumerate.
  destruct (items vs) as [|it its]; [done|].
  simpl enumerate_from. rewrite for_each_cons, loop_body_Py3. done.
Qed.

End Edges.

Section Flow.
Context {F : Framework}.

Lemma last_two_app {A} (l : list A) (a b : A) : last (l ++ [a; b]) = Some b.
Proof.
  change [a; b] with ([a] ++ [b]). rewrite app_assoc. apply last_snoc.
Qed.

(** X10 — The progress shown counts from zero: when a Python 2 run of the
    loop and evaluation returns on a non-empty validation set, the last
    text written to standard output is [Finished: (k-1) / num_images]
    for the [k] images processed; the display never reaches
    [k / num_images]. *)
Theorem last_progress_line (vs : validation_set) (model : network) :
  outcome (run_inference Py2 vs model) = inr tt →
  items vs ≠ [] →
  last (stdout_of (trace (run_inference Py2 vs model))) =
    Some ("Finished: " +:+ pretty (length (items vs) - 1)%nat +:+ " / " +:+
          pretty (ndata vs)).
Proof.
  intros Hout Hne. rewrite run_inference_Py2 in Hout.
  apply outcome_bind_inr in Hout as (st' & Hl & _).
  rewrite (run_inference_Py2_inr vs model st' Hl), trace_pair, stdout_of_app.
  unfold enumerate. change 0%nat with (strlen_before vs 0) at 1.
  rewrite stdout_of_loop_phase. simpl stdout_of. rewrite app_nil_r.
  destruct (items vs) as [|it its] using rev_ind; [done|].
  rewrite length_app. simpl length.
  replace (length its + 1)%nat with (S (length its)) by lia.
  rewrite seq_S, flat_map_app. simpl flat_map.
  rewrite last_two_app. unfold prt_str.
  by replace (S (length its) - 1)%nat with (length its) by lia.
Qed.

(** X11 — No command-line argument reaches the detection parameters:
    whenever the loader configuration is built it asks for 256 regions
    per image in inference mode, with the width and height of the
    command line and the ['val'] entry of the manifest; the model is
    built for 128 regions per image in inference mode; and every box
    decoding is called with at most 100 detections per image, score
    threshold 0.001 and NMS threshold 0.3. *)
Theorem hyperparameters_fixed (py : python) (argv : Args) :
  (∀ cfg, EvPASCALVOC cfg ∈ trace (inference py argv) →
     cfg_rois_per_img cfg = 256%nat ∧ cfg_inference cfg = true ∧
     cfg_width cfg = width argv ∧ cfg_height cfg = height argv ∧
     manifest argv !! "val" = Some (cfg_manifest cfg)) ∧
  (∀ r i, EvBuildModel r i ∈ trace (inference py argv) → r = 128%nat ∧ i = true) ∧
  (∀ r, EvObjectLocalization r ∈ trace (inference py argv) → r = 128%nat) ∧
  (∀ out props np nc shp sc md thr nms,
     EvGetBboxes out props np nc shp sc md thr nms ∈ trace (inference py argv) →
     md = 100%nat ∧ thr = (1 # 1000)%Q ∧ nms = (3 # 10)%Q).
Proof.
  pose (P := λ e : event,
    match e with
    | EvPASCALVOC cfg =>
        cfg_rois_per_img cfg = 256%nat ∧ cfg_inference cfg = true ∧
        cfg_width cfg = width argv ∧ cfg_height cfg = height argv ∧
        manifest argv !! "val" = Some (cfg_manifest cfg)
    | EvBuildModel r i => r = 128%nat ∧ i = true
    | EvObjectLocalization r => r = 128%nat
    | EvGetBboxes _ _ _ _ _ _ md thr nms =>
        md = 100%nat ∧ thr = (1 # 1000)%Q ∧ nms = (3 # 10)%Q
    | _ => True
    end).
  assert (Forall P (trace (inference py argv))) as HP.
  { destruct (config_cases argv) as [(v & f & Hf & Hv & Hb)|Hbad].
    2:{ destruct (inference_invalid py argv Hbad) as (msg & _ & ->).
        by repeat constructor. }
    destruct (resolve_output_dir_frame argv) as (_ & _ & _ & _ & _ & Ew & Eh).
    rewrite (inference_valid py argv v f), trace_after by done.
    apply Forall_app. split.
    - unfold parse_phase, backend_phase, loader_phase, model_phase, loader_config_of.
      destruct (normalize (resolve_output_dir argv)); simpl;
        repeat (constructor; [by simpl; rewrite ?Ew, ?Eh|]); constructor.
    - apply run_inference_Forall.
      + intros strlen i it. unfold image_phase.
        repeat (constructor; [by simpl|]). constructor.
      + intros dets gts. unfold eval_phase. by repeat constructor. }
  rewrite Forall_forall in HP.
  split; [|split; [|split]].
  - intros cfg Hin. apply (HP _ Hin).
  - intros r i Hin. apply (HP _ Hin).
  - intros r Hin. apply (HP _ Hin).
  - intros out props np nc shp sc md thr nms Hin. apply (HP _ Hin).
Qed.

Lemma bind_ext {A B} (m : M A) (k1 k2 : A → M B) :
  (∀ a, k1 a = k2 a) → bind m k1 = bind m k2.
Proof. intros Hk. destruct m as [t [e|a]]; simpl; [done|]. by rewrite Hk. Qed.

Lemma for_each_with_y (py : python) (vs : validation_set) (model : network)
    (g : image → tensor) (its0 its : list image) (k : nat) (st : accum) :
  for_each (loop_body py (with_items its0 vs) model)
           (enumerate_from k ((λ it, with_y (g it) it) <$> its)) st =
  for_each (loop_body py vs model) (enumerate_from k its) st.
Proof.
  revert k st. induction its as [|it its IH]; intros k st; [done|].
  rewrite fmap_cons. simpl enumerate_from. rewrite !for_each_cons.
  change (loop_body py (with_items its0 vs) model k (with_y (g it) it) st)
    with (loop_body py vs model k it st).
  apply bind_ext. intros s. apply IH.
Qed.

(** X12 — The target tensor [y] that the loader yields with each image
    is ignored: replacing it by anything, image by image, leaves every
    call of the loop and of the evaluation, their arguments and the
    outcome unchanged. *)
Theorem target_tensor_ignored (py : python) (vs : validation_set) (model : network)
    (g : image → tensor) :
  run_inference py (with_items ((λ it, with_y (g it) it) <$> items vs) vs) model =
  run_inference py vs model.
Proof.
  unfold run_inference, mbind, M_bind.
  change (make_accumulators py (with_items ((λ it, with_y (g it) it) <$> items vs) vs))
    with (make_accumulators py vs).
  apply bind_ext. intros st.
  unfold run_loop, enumerate. simpl items. rewrite for_each_with_y.
  apply bind_ext. intros s. reflexivity.
Qed.

End Flow.

(** * The further properties on the concrete framework *)

Lemma inference_returns_iff_witness :
  (Py2 = Py2 ∧
   ∃ v f,
     model_file demo_args = Some f ∧ manifest demo_args !! "val" = Some v ∧
     batch_size demo_args = 1 ∧
     let vs := load_dataset (loader_config_of (resolve_output_dir demo_args) v) in
     (length (items vs) ≤ ndata vs)%nat ∧
     Forall (λ it, ∃ gt, assemble_gt it = inr gt) (items vs)) ∧
  outcome (inference Py2 demo_args) = inr tt.
Proof.
  assert (Py2 = Py2 ∧
   ∃ v f,
     model_file demo_args = Some f ∧ manifest demo_args !! "val" = Some v ∧
     batch_size demo_args = 1 ∧
     let vs := load_dataset (loader_config_of (resolve_output_dir demo_args) v) in
     (length (items vs) ≤ ndata vs)%nat ∧
     Forall (λ it, ∃ gt, assemble_gt it = inr gt) (items vs)) as Hcond.
  { split; [reflexivity|]. exists "val.csv", "faster_rcnn.pkl".
    split; [reflexivity|]. split; [vm_compute; reflexivity|]. split; [reflexivity|].
    split; [vm_compute; lia|].
    repeat constructor; apply assemble_gt_inr_iff; vm_compute; auto. }
  split; [exact Hcond|]. apply (proj2 (inference_returns_iff Py2 demo_args) Hcond).
Defined.

Lemma inference_outcomes_witness :
  (model_file demo_args_two_faults = None ∨
   manifest demo_args_two_faults !! "val" = None ∨
   batch_size demo_args_two_faults ≠ 1) ∧
  (∃ msg, outcome (inference Py2 demo_args_two_faults) = inl (AssertionError msg)) ∧
  outcome (inference Py3 demo_args) = inl (NameError "xrange") ∧
  outcome (inference Py3 demo_args) ≠ inl TypeError.
Proof.
  assert (model_file demo_args_two_faults = None ∨
          manifest demo_args_two_faults !! "val" = None ∨
          batch_size demo_args_two_faults ≠ 1) as Hbad by (left; reflexivity).
  split; [exact Hbad|].
  destruct (inference_outcomes Py2 demo_args_two_faults) as (_ & Hassert & _).
  split; [exact (proj2 Hassert Hbad)|].
  destruct (inference_outcomes Py3 demo_args) as (_ & _ & Hname & _ & _ & Htype).
  split; [|exact Htype].
  apply (Hname "xrange"). split; [reflexivity|]. split; [reflexivity|].
  exists "val.csv", "faster_rcnn.pkl".
  split; [reflexivity|]. split; [vm_compute; reflexivity|reflexivity].
Defined.

Lemma first_failed_assertion_reported_witness :
  model_file demo_args_two_faults = None ∧
  inference Py2 demo_args_two_faults =
    ([EvParseArgs],
     inl (AssertionError "Model file required for Faster-RCNN testing")).
Proof.
  split; [reflexivity|].
  apply (first_failed_assertion_reported Py2 demo_args_two_faults). reflexivity.
Defined.


Lemma overfull_loader_raises_IndexError_witness :
  (ndata demo_overfull_set < length (items demo_overfull_set))%nat ∧
  outcome (run_inference Py2 demo_overfull_set demo_model) = inl IndexError ∧
  count is_fprop (trace (run_inference Py2 demo_overfull_set demo_model)) = 2%nat.
Proof.
  assert (ndata demo_overfull_set < length (items demo_overfull_set))%nat as Hlen
    by (vm_compute; lia).
  split; [exact Hlen|].
  destruct (overfull_loader_raises_IndexError demo_overfull_set demo_model Hlen)
    as (Ho & _ & Hc & _).
  { repeat constructor. apply assemble_gt_inr_iff. vm_compute. auto. }
  split; [exact Ho|exact Hc].
Defined.

Lemma stacking_needs_enough_rows_witness :
  (0 ≤ num_gt_boxes demo_item)%Z ∧ ∃ gt, assemble_gt demo_item = inr gt.
Proof.
  assert (0 ≤ num_gt_boxes demo_item)%Z as Hn by (vm_compute; discriminate).
  split; [exact Hn|].
  apply (proj1 (stacking_needs_enough_rows demo_item Hn)).
  vm_compute. lia.
Defined.

Lemma negative_box_count_slices_from_end_witness :
  (num_gt_boxes demo_negative_item < 0)%Z ∧
  ∃ gt, assemble_gt demo_negative_item = inr gt.
Proof.
  assert (num_gt_boxes demo_negative_item < 0)%Z as Hn by (vm_compute; reflexivity).
  split; [exact Hn|].
  apply (proj1 (negative_box_count_slices_from_end demo_negative_item Hn)).
  vm_compute. lia.
Defined.

Lemma python3_loop_raises_TypeError_witness :
  items demo_valid_set ≠ [] ∧
  outcome (run_loop Py3 demo_valid_set demo_model (initial_accum demo_valid_set)) =
    inl TypeError.
Proof.
  assert (items demo_valid_set ≠ []) as Hne by (vm_compute; discriminate).
  split; [exact Hne|].
  destruct (python3_loop_raises_TypeError demo_valid_set demo_model
              (initial_accum demo_valid_set) Hne) as [-> _].
  reflexivity.
Defined.

Lemma last_progress_line_witness :
  outcome (run_inference Py2 demo_valid_set demo_model) = inr tt ∧
  items demo_valid_set ≠ [] ∧
  last (stdout_of (trace (run_inference Py2 demo_valid_set demo_model))) =
    Some "Finished: 1 / 2".
Proof.
  assert (outcome (run_inference Py2 demo_valid_set demo_model) = inr tt) as Hout
    by (vm_compute; reflexivity).
  assert (items demo_valid_set ≠ []) as Hne by (vm_compute; discriminate).
  split; [exact Hout|]. split; [exact Hne|].
  rewrite (last_progress_line demo_valid_set demo_model Hout Hne).
  vm_compute. reflexivity.
Defined.

Lemma hyperparameters_fixed_witness :
  EvBuildModel 128 true ∈ trace (inference Py2 demo_args) ∧
  ∀ r i, EvBuildModel r i ∈ trace (inference Py2 demo_args) → r = 128%nat ∧ i = true.
Proof.
  split.
  - apply (list_elem_of_lookup_2 _ 8). vm_compute. reflexivity.
  - apply (hyperparameters_fixed Py2 demo_args).
Defined.
